(** * Library Management System: circulation, catalog and late fees

    A shallow embedding of [library_service.py] (catalog management,
    borrowing, returning, late-fee calculation, catalog search and the patron
    status report) together with the properties its specification states.

    Conventions of the embedding.
    - A Python [str] is a [string]; each [ascii] stands for one code point in
      the range 0..255, so [len], [strip] and [isdigit] count and classify
      characters the way Python does on that range.
    - A naive [datetime] is the number of microseconds since the start of the
      day with proleptic Gregorian ordinal 0; [date_of] is [datetime.date()]
      as an ordinal ([date.toordinal()]), and subtracting two dates gives the
      [.days] of their difference.
    - A Python [float] holding money is a rational [Q].  Every amount the
      service computes is an integer multiple of 0.5 (a day count times 0.50,
      3.5 plus a day count, a sum of such terms, or the cap 15.00), which
      binary floating point represents and adds exactly, so the rational
      result is the floating-point result.
    - The service returns [(success, message)] pairs whose message is an
      f-string; a [Message] is the format together with its arguments and
      [render] gives the text.
    - The storage layer ([database.py]) and the clock are the environment of a
      call: [Env] carries the clock reading, taken once for the whole call,
      and, for each storage call the service makes, whether it succeeds.
      Output on the console ([print]) is left out. *)

From Stdlib Require Import ZArith QArith Qminmax List String Ascii Bool Lia.
From Stdlib Require Import DecimalString.
From Stdlib Require Import Permutation Sorted.
Import ListNotations.

Local Open Scope string_scope.
Local Open Scope Z_scope.

(** ** Python built-ins used by the service *)

Module Py.

(** [str.isspace] on one character, for code points below 256. *)
Definition isspace (c : ascii) : bool :=
  let n := N_of_ascii c in
  ((9 <=? n) && (n <=? 13) || (28 <=? n) && (n <=? 32)
   || (n =? 133) || (n =? 160))%N.

(** [str.isdigit] on one character, for code points below 256: the ASCII
    digits and the superscripts two, three and one. *)
Definition isdigit_char (c : ascii) : bool :=
  let n := N_of_ascii c in
  ((48 <=? n) && (n <=? 57) || (n =? 178) || (n =? 179) || (n =? 185))%N.

Fixpoint lstrip (s : string) : string :=
  match s with
  | EmptyString => EmptyString
  | String c s' => if isspace c then lstrip s' else s
  end.

Fixpoint rstrip (s : string) : string :=
  match s with
  | EmptyString => EmptyString
  | String c s' =>
      match rstrip s' with
      | EmptyString => if isspace c then EmptyString else String c EmptyString
      | r => String c r
      end
  end.

(** [s.strip()] *)
Definition strip (s : string) : string := rstrip (lstrip s).

(** [len(s)] *)
Definition len (s : string) : Z := Z.of_nat (String.length s).

(** [s.isdigit()]: every character is a digit and there is at least one. *)
Definition isdigit (s : string) : bool :=
  match s with
  | EmptyString => false
  | _ => forallb isdigit_char (list_ascii_of_string s)
  end.

(** Truth value of a string: [not s] is [negb (truthy s)]. *)
Definition truthy (s : string) : bool := negb (s =? EmptyString)%string.

(** [str(n)] for an [int]. *)
Definition str (n : Z) : string := NilZero.string_of_int (Z.to_int n).

Fixpoint pad_zeros (k : nat) (s : string) : string :=
  match k with
  | O => s
  | S k' => pad_zeros k' (String "0" s)
  end.

(** [s.zfill(w)] for a string of digits. *)
Definition zfill (w : nat) (s : string) : string :=
  pad_zeros (w - String.length s) s.

(** Rounding of an exact value to the nearest integer, ties to even:
    the rounding mode of [round] and of the [.2f] format, which agree with
    this on the multiples of 0.5 the service hands them. *)
Definition round_half_even (q : Q) : Z :=
  let n := Qnum q in
  let d := Zpos (Qden q) in
  let f := n / d in
  let r2 := 2 * (n mod d) in
  if r2 <? d then f
  else if d <? r2 then f + 1
  else if Z.even f then f else f + 1.

(** [round(x, 2)] *)
Definition round2 (q : Q) : Q := round_half_even (q * 100) # 100.

(** [f'{x:.2f}'] *)
Definition format_2f (q : Q) : string :=
  let c := round_half_even (q * 100) in
  (if c <? 0 then "-" else EmptyString)
    ++ str (Z.abs c / 100) ++ "." ++ zfill 2 (str (Z.abs c mod 100)).

(** [min(a, b)]: [b] when [b < a], else [a]. *)
Definition min (a b : Q) : Q := if Qlt_le_dec b a then b else a.

(** A dynamically typed argument, as far as [isinstance(x, int)] and the
    comparison that follows it can tell values apart.  [True] and [False]
    are the ints 1 and 0. *)
Inductive value : Type :=
| Int (n : Z)
| Float (x : Q)
| Str (s : string)
| NoneVal.

End Py.

(** ** Dates and times *)

Definition datetime : Type := Z.
Definition date : Type := Z.

Definition usec_per_day : Z := 86400000000.

(** [dt.date()], as the ordinal of the day. *)
Definition date_of (dt : datetime) : date := dt / usec_per_day.

(** [dt + timedelta(days=n)] *)
Definition plus_days (dt : datetime) (n : Z) : datetime := dt + n * usec_per_day.

(** Year, month and day of an ordinal in the proleptic Gregorian calendar
    (ordinal 1 is 0001-01-01). *)
Definition ymd_of_ordinal (o : date) : Z * Z * Z :=
  let z := o + 305 in
  let era := z / 146097 in
  let doe := z - era * 146097 in
  let yoe := (doe - doe / 1460 + doe / 36524 - doe / 146096) / 365 in
  let doy := doe - (365 * yoe + yoe / 4 - yoe / 100) in
  let mp := (5 * doy + 2) / 153 in
  let d := doy - (153 * mp + 2) / 5 + 1 in
  let m := if mp <? 10 then mp + 3 else mp - 9 in
  let y := yoe + era * 400 + (if m <=? 2 then 1 else 0) in
  (y, m, d).

(** [dt.strftime("%Y-%m-%d")], the year written with four digits. *)
Definition strftime_Ymd (dt : datetime) : string :=
  let '(y, m, d) := ymd_of_ordinal (date_of dt) in
  Py.zfill 4 (Py.str y) ++ "-" ++ Py.zfill 2 (Py.str m) ++ "-" ++ Py.zfill 2 (Py.str d).

(** ** Data model *)

Record Book : Type := mkBook {
  id : Z;
  title : string;
  author : string;
  isbn : string;
  total_copies : Z;
  available_copies : Z
}.

Record BorrowRecord : Type := mkBorrowRecord {
  patron_id : string;
  book_id : Z;
  borrow_date : datetime;
  due_date : datetime;
  return_date : option datetime
}.

(** The two tables of the store, rows in insertion order. *)
Record Database : Type := mkDatabase {
  books : list Book;
  borrow_records : list BorrowRecord
}.

(** One entry of [get_patron_borrowed_books]: an open loan joined with its
    book and flagged when overdue. *)
Record BorrowedBook : Type := mkBorrowedBook {
  loan_book_id : Z;
  loan_title : string;
  loan_author : string;
  loan_borrow_date : datetime;
  loan_due_date : datetime;
  is_overdue : bool
}.

(** What one call of the service finds around it: the clock, and the outcome
    of each storage call it may make. *)
Record Env : Type := mkEnv {
  now : datetime;
  insert_book_ok : bool;
  insert_borrow_record_ok : bool;
  update_borrow_record_return_date_ok : bool;
  update_book_availability_ok : bool;
  query_ok : bool
}.

(** ** Storage gateway *)

(** Modelled from the spec: [init_database] of [database.py], the store
    without any row. *)
Definition init_database : Database := mkDatabase [] [].

(** Modelled from the spec: the id [database.py] gives a new book, "unique,
    assigned by storage"; here the successor of the largest id in the table. *)
Definition next_book_id (db : Database) : Z :=
  1 + fold_right (fun b m => Z.max (id b) m) 0 (books db).

(** Modelled from the spec: [get_book_by_id] of [database.py],
    [get_book(id) -> Book | absent]. *)
Definition get_book_by_id (db : Database) (i : Z) : option Book :=
  find (fun b => id b =? i) (books db).

(** Modelled from the spec: [get_book_by_isbn] of [database.py],
    [get_book(isbn) -> Book | absent]. *)
Definition get_book_by_isbn (db : Database) (s : string) : option Book :=
  find (fun b => (isbn b =? s)%string) (books db).

(** A loan is a borrow record whose return date is unset. *)
Definition is_open (r : BorrowRecord) : bool :=
  match return_date r with
  | None => true
  | Some _ => false
  end.

Definition open_loan_of (p : string) (r : BorrowRecord) : bool :=
  is_open r && (patron_id r =? p)%string.

(** Modelled from the spec: [get_patron_borrow_count] of [database.py],
    [count_open_loans(patron) -> integer]. *)
Definition get_patron_borrow_count (db : Database) (p : string) : Z :=
  Z.of_nat (List.length (filter (open_loan_of p) (borrow_records db))).

(** Modelled from the spec: [insert_book] of [database.py],
    [insert_book(title, author, isbn, total, available) -> success flag];
    a failed insert leaves the store as it was. *)
Definition insert_book (ok : bool) (db : Database)
    (t a i : string) (total available : Z) : bool * Database :=
  if ok then
    (true, mkDatabase (books db ++ [mkBook (next_book_id db) t a i total available])
                      (borrow_records db))
  else (false, db).

(** Modelled from the spec: [insert_borrow_record] of [database.py],
    [insert_borrow_record(patron, book, borrow_date, due_date) -> success flag];
    the new record is open, and a failed insert leaves the store as it was. *)
Definition insert_borrow_record (ok : bool) (db : Database)
    (p : string) (b : Z) (borrowed due : datetime) : bool * Database :=
  if ok then
    (true, mkDatabase (books db)
                      (borrow_records db ++ [mkBorrowRecord p b borrowed due None]))
  else (false, db).

Definition shift_available (b delta : Z) (bk : Book) : Book :=
  if id bk =? b then
    mkBook (id bk) (title bk) (author bk) (isbn bk)
           (total_copies bk) (available_copies bk + delta)
  else bk.

(** Modelled from the spec: [update_book_availability] of [database.py],
    [update_available_copies(book_id, delta) -> success flag], which adds
    [delta] (-1 on borrow, +1 on return) to the available copies of the
    book. *)
Definition update_book_availability (ok : bool) (db : Database)
    (b : Z) (delta : Z) : bool * Database :=
  if ok then
    (true, mkDatabase (map (shift_available b delta) (books db))
                      (borrow_records db))
  else (false, db).

Fixpoint close_first_loan (p : string) (b : Z) (returned : datetime)
    (l : list BorrowRecord) : list BorrowRecord :=
  match l with
  | [] => []
  | r :: l' =>
      if open_loan_of p r && (book_id r =? b) then
        mkBorrowRecord (patron_id r) (book_id r) (borrow_date r) (due_date r)
                       (Some returned) :: l'
      else r :: close_first_loan p b returned l'
  end.

(** Modelled from the spec: [update_borrow_record_return_date] of
    [database.py], [set_return_date(patron, book, return_date) -> success
    flag], which sets the return date on the open record found for the
    pair. *)
Definition update_borrow_record_return_date (ok : bool) (db : Database)
    (p : string) (b : Z) (returned : datetime) : bool * Database :=
  if ok then
    (true, mkDatabase (books db)
                      (close_first_loan p b returned (borrow_records db)))
  else (false, db).

(** Modelled from the spec: [get_patron_borrowed_books] of [database.py],
    [list_open_loans(patron)]: the patron's open borrow records with the
    title and author of their book, each annotated with an overdue flag
    ([due_date < now]). *)
Definition get_patron_borrowed_books (clock : datetime) (db : Database)
    (p : string) : list BorrowedBook :=
  flat_map
    (fun r =>
       if open_loan_of p r then
         match get_book_by_id db (book_id r) with
         | Some bk =>
             [mkBorrowedBook (book_id r) (title bk) (author bk)
                             (borrow_date r) (due_date r) (due_date r <? clock)]
         | None => []
         end
       else [])
    (borrow_records db).

(** ** The SQL the service runs itself *)

Module Sqlite.

(** Case folding of [LIKE] and of [COLLATE NOCASE]: the 26 ASCII letters. *)
Definition lower (c : ascii) : ascii :=
  let n := N_of_ascii c in
  if ((65 <=? n) && (n <=? 90))%N then ascii_of_N (n + 32) else c.

Definition eq_nocase (c d : ascii) : bool := (lower c =? lower d)%char.

(** [s LIKE pattern]: [%] stands for any run of characters, [_] for any one
    character, every other character for itself up to case. *)
Fixpoint like (pattern : string) : string -> bool :=
  match pattern with
  | EmptyString =>
      fun s => match s with EmptyString => true | String _ _ => false end
  | String c p =>
      if (c =? "%")%char then
        fix any (s : string) : bool :=
          like p s
          || match s with EmptyString => false | String _ s' => any s' end
      else if (c =? "_")%char then
        fun s => match s with EmptyString => false | String _ s' => like p s' end
      else
        fun s =>
          match s with
          | EmptyString => false
          | String d s' => eq_nocase c d && like p s'
          end
  end.

Section OrderBy.
Context {A : Type} (le : A -> A -> bool).

Fixpoint insert_sorted (x : A) (l : list A) : list A :=
  match l with
  | [] => [x]
  | y :: l' => if le x y then x :: l else y :: insert_sorted x l'
  end.

(** [ORDER BY]: rows that compare equal keep their table order. *)
Definition order_by (l : list A) : list A :=
  fold_right insert_sorted [] l.
End OrderBy.

End Sqlite.

(** ** Results of the service *)

Inductive Message : Type :=
| Title_required
| Title_too_long
| Author_required
| Author_too_long
| Isbn_not_13
| Copies_not_positive
| Isbn_exists
| Book_added (title : string)
| Db_error_adding_book
| Invalid_patron_id
| Book_not_found
| Book_not_available
| Borrowing_limit_reached
| Db_error_creating_borrow_record
| Db_error_updating_availability
| Borrowed (title : string) (due_date : datetime)
| Not_borrowed_by_patron
| Db_error_updating_return_record
| Returned_late (days_late : Z) (fee_amount : Q)
| Returned (title : string).

Definition dquote : string := String (ascii_of_nat 34) EmptyString.

(** The text of each message, as the service's string literals and f-strings
    spell it. *)
Definition render (m : Message) : string :=
  match m with
  | Title_required => "Title is required."
  | Title_too_long => "Title must be less than 200 characters."
  | Author_required => "Author is required."
  | Author_too_long => "Author must be less than 100 characters."
  | Isbn_not_13 => "ISBN must be exactly 13 digits."
  | Copies_not_positive => "Total copies must be a positive integer."
  | Isbn_exists => "A book with this ISBN already exists."
  | Book_added t =>
      "Book " ++ dquote ++ t ++ dquote ++ " has been successfully added to the catalog."
  | Db_error_adding_book => "Database error occurred while adding the book."
  | Invalid_patron_id => "Invalid patron ID. Must be exactly 6 digits."
  | Book_not_found => "Book not found."
  | Book_not_available => "This book is currently not available."
  | Borrowing_limit_reached =>
      "You have reached the maximum borrowing limit of 5 books."
  | Db_error_creating_borrow_record =>
      "Database error occurred while creating borrow record."
  | Db_error_updating_availability =>
      "Database error occurred while updating book availability."
  | Borrowed t due =>
      "Successfully borrowed " ++ dquote ++ t ++ dquote ++ ". Due date: "
        ++ strftime_Ymd due ++ "."
  | Not_borrowed_by_patron => "This book was not borrowed by this patron."
  | Db_error_updating_return_record =>
      "Database error occurred while updating return record."
  | Returned_late days fee =>
      "Book returned successfully but " ++ Py.str days ++ " days late. Late fee: $"
        ++ Py.format_2f fee
  | Returned t =>
      "Book " ++ dquote ++ t ++ dquote ++ " has been successfully returned."
  end.

Record FeeResult : Type := mkFeeResult {
  fee_amount : Q;
  days_overdue : Z;
  status : string
}.

Record CurrentBook : Type := mkCurrentBook {
  current_book_id : Z;
  current_title : string;
  current_author : string;
  current_due_date : string;
  current_is_overdue : bool
}.

Record HistoryEntry : Type := mkHistoryEntry {
  history_book_id : Z;
  history_title : string;
  history_author : string;
  history_isbn : string;
  history_borrow_date : string;
  history_due_date : string;
  history_return_date : option string;
  history_status : string
}.

Record Report : Type := mkReport {
  error : option string;
  current_books : list CurrentBook;
  total_borrowed : Z;
  total_fees : Q;
  borrow_history : list HistoryEntry
}.

(** ** library_service.py *)

(** The patron-id check that opens every circulation function:
    [not patron_id or not patron_id.isdigit() or len(patron_id) != 6]. *)
Definition invalid_patron_id (patron_id : string) : bool :=
  negb (Py.truthy patron_id) || negb (Py.isdigit patron_id)
  || negb (Py.len patron_id =? 6).

Definition add_book_to_catalog (e : Env) (db : Database)
    (title author isbn : string) (total_copies : Py.value)
    : bool * Message * Database :=
  if negb (Py.truthy title) || negb (Py.truthy (Py.strip title)) then
    (false, Title_required, db)
  else if 200 <? Py.len (Py.strip title) then
    (false, Title_too_long, db)
  else if negb (Py.truthy author) || negb (Py.truthy (Py.strip author)) then
    (false, Author_required, db)
  else if 100 <? Py.len (Py.strip author) then
    (false, Author_too_long, db)
  else if negb (Py.len isbn =? 13) then
    (false, Isbn_not_13, db)
  else
    match total_copies with
    | Py.Int copies =>
        if copies <=? 0 then (false, Copies_not_positive, db)
        else
          match get_book_by_isbn db isbn with
          | Some existing => (false, Isbn_exists, db)
          | None =>
              let '(success, db') :=
                insert_book (insert_book_ok e) db
                            (Py.strip title) (Py.strip author) isbn copies copies in
              if success then (true, Book_added (Py.strip title), db')
              else (false, Db_error_adding_book, db')
          end
    | _ => (false, Copies_not_positive, db)
    end.

Definition borrow_book_by_patron (e : Env) (db : Database)
    (patron_id : string) (book_id : Z) : bool * Message * Database :=
  if invalid_patron_id patron_id then (false, Invalid_patron_id, db)
  else
    match get_book_by_id db book_id with
    | None => (false, Book_not_found, db)
    | Some book =>
        if available_copies book <=? 0 then (false, Book_not_available, db)
        else
          let current_borrowed := get_patron_borrow_count db patron_id in
          if 5 <? current_borrowed then (false, Borrowing_limit_reached, db)
          else
            let borrow_date := now e in
            let due_date := plus_days borrow_date 14 in
            let '(borrow_success, db1) :=
              insert_borrow_record (insert_borrow_record_ok e) db
                                   patron_id book_id borrow_date due_date in
            if negb borrow_success then
              (false, Db_error_creating_borrow_record, db1)
            else
              let '(availability_success, db2) :=
                update_book_availability (update_book_availability_ok e) db1
                                         book_id (-1) in
              if negb availability_success then
                (false, Db_error_updating_availability, db2)
              else (true, Borrowed (title book) due_date, db2)
    end.

Definition return_book_by_patron (e : Env) (db : Database)
    (patron_id : string) (book_id : Z) : bool * Message * Database :=
  if invalid_patron_id patron_id then (false, Invalid_patron_id, db)
  else
    match get_book_by_id db book_id with
    | None => (false, Book_not_found, db)
    | Some book =>
        let borrowed_books := get_patron_borrowed_books (now e) db patron_id in
        match find (fun borrowed => loan_book_id borrowed =? book_id) borrowed_books with
        | None => (false, Not_borrowed_by_patron, db)
        | Some borrowed =>
            let due_date := loan_due_date borrowed in
            let return_date := now e in
            let '(update_success, db1) :=
              update_borrow_record_return_date
                (update_borrow_record_return_date_ok e) db
                patron_id book_id return_date in
            if negb update_success then
              (false, Db_error_updating_return_record, db1)
            else
              let '(availability_success, db2) :=
                update_book_availability (update_book_availability_ok e) db1
                                         book_id 1 in
              if negb availability_success then
                (false, Db_error_updating_availability, db2)
              else if date_of due_date <? date_of return_date then
                let days_late := date_of return_date - date_of due_date in
                let fee_amount := (inject_Z days_late * (1 # 2))%Q in
                (true, Returned_late days_late fee_amount, db2)
              else (true, Returned (title book), db2)
        end
    end.

Definition calculate_late_fee_for_book (e : Env) (db : Database)
    (patron_id : string) (book_id : Z) : FeeResult :=
  if invalid_patron_id patron_id then mkFeeResult 0 0 "Invalid patron ID"
  else
    match get_book_by_id db book_id with
    | None => mkFeeResult 0 0 "Book not found"
    | Some book =>
        let borrowed_books := get_patron_borrowed_books (now e) db patron_id in
        match find (fun borrowed => loan_book_id borrowed =? book_id) borrowed_books with
        | None => mkFeeResult 0 0 "Book not borrowed by this patron"
        | Some book_record =>
            let current_date := date_of (now e) in
            let due_date := date_of (loan_due_date book_record) in
            if current_date <=? due_date then mkFeeResult 0 0 "Book not overdue"
            else
              let days_overdue := current_date - due_date in
              let fee_amount :=
                if days_overdue <=? 7 then (inject_Z days_overdue * (1 # 2))%Q
                else (7 * (1 # 2) + inject_Z (days_overdue - 7) * 1)%Q in
              let fee_amount := Py.min fee_amount 15 in
              mkFeeResult (Py.round2 fee_amount) days_overdue "Late fee calculated"
        end
    end.

(** The column a title or author search reads. *)
Definition search_column (search_type : string) (b : Book) : string :=
  if (search_type =? "title")%string then title b else author b.

Definition order_by_title : list Book -> list Book :=
  Sqlite.order_by (fun a b => String.leb (title a) (title b)).

Definition search_books_in_catalog (e : Env) (db : Database)
    (search_term search_type : string) : list Book :=
  if negb (Py.truthy search_term) || negb (Py.truthy (Py.strip search_term)) then []
  else if negb (existsb (String.eqb search_type) ["title"; "author"; "isbn"]) then []
  else
    let search_term := Py.strip search_term in
    if negb (query_ok e) then []
    else
      let books :=
        if (search_type =? "isbn")%string then
          order_by_title
            (filter (fun b => (isbn b =? search_term)%string) (books db))
        else
          let search_pattern := "%" ++ search_term ++ "%" in
          order_by_title
            (filter (fun b => Sqlite.like search_pattern (search_column search_type b))
                    (books db)) in
      map (fun book =>
             mkBook (id book) (title book) (author book) (isbn book)
                    (total_copies book) (available_copies book))
          books.

(** The history query: the patron's borrow records joined with their books,
    newest borrow first. *)
Definition history_rows (db : Database) (patron : string)
    : list (BorrowRecord * Book) :=
  Sqlite.order_by
    (fun x y => borrow_date (fst y) <=? borrow_date (fst x))
    (flat_map
       (fun br =>
          if (patron_id br =? patron)%string then
            match get_book_by_id db (book_id br) with
            | Some b => [(br, b)]
            | None => []
            end
          else [])
       (borrow_records db)).

Definition error_report (message : string) : Report :=
  mkReport (Some message) [] 0 0 [].

Definition get_patron_status_report (e : Env) (db : Database)
    (patron_id : string) : Report :=
  if invalid_patron_id patron_id then
    error_report "Invalid patron ID. Must be exactly 6 digits."
  else
    let current_books := get_patron_borrowed_books (now e) db patron_id in
    let total_fees :=
      fold_left
        (fun total_fees book =>
           if is_overdue book then
             let fee_info :=
               calculate_late_fee_for_book e db patron_id (loan_book_id book) in
             (total_fees + fee_amount fee_info)%Q
           else total_fees)
        current_books 0%Q in
    if negb (query_ok e) then
      error_report "Database error occurred while generating report."
    else
      let history := history_rows db patron_id in
      let borrow_history :=
        map (fun record =>
               mkHistoryEntry
                 (book_id (fst record)) (title (snd record))
                 (author (snd record)) (isbn (snd record))
                 (strftime_Ymd (borrow_date (fst record)))
                 (strftime_Ymd (due_date (fst record)))
                 (option_map strftime_Ymd (return_date (fst record)))
                 (match return_date (fst record) with
                  | Some _ => "Returned"
                  | None => "Borrowed"
                  end))
            history in
      mkReport None
        (map (fun book =>
                mkCurrentBook (loan_book_id book) (loan_title book)
                              (loan_author book)
                              (strftime_Ymd (loan_due_date book))
                              (is_overdue book))
             current_books)
        (Z.of_nat (List.length current_books))
        (Py.round2 total_fees)
        borrow_history.

(** ** The specification's own formulations *)

(** Days overdue, in the words of the specification: the calendar-day
    difference between now and the due date, never negative. *)
Definition spec_days_overdue (due clock : datetime) : Z :=
  Z.max 0 (date_of clock - date_of due).

(** The tiered fee, in the words of the specification:
    [min(15.00, 0.50 * min(days,7) + 1.00 * max(0, days-7))]. *)
Definition spec_fee (days : Z) : Q :=
  Qmin 15 ((1 # 2) * Qmin (inject_Z days) 7 + 1 * Qmax 0 (inject_Z days - 7)).

(** The validation rules of [add], in the order the specification lists
    them, each in the specification's words. *)
Inductive Rule : Type :=
| Title_presence
| Title_length
| Author_presence
| Author_length
| Isbn_format
| Copies_validity
| Duplicate_isbn.

Definition is_ascii_digit (c : ascii) : bool :=
  let n := N_of_ascii c in ((48 <=? n) && (n <=? 57))%N.

(** Exactly 13 characters, all digits. *)
Definition isbn_13_digits (s : string) : bool :=
  (Py.len s =? 13) && forallb is_ascii_digit (list_ascii_of_string s).

Definition rule_fails (db : Database) (title author isbn : string)
    (total_copies : Py.value) (r : Rule) : bool :=
  match r with
  | Title_presence => (Py.strip title =? EmptyString)%string
  | Title_length => 200 <? Py.len (Py.strip title)
  | Author_presence => (Py.strip author =? EmptyString)%string
  | Author_length => 100 <? Py.len (Py.strip author)
  | Isbn_format => negb (isbn_13_digits isbn)
  | Copies_validity =>
      match total_copies with
      | Py.Int n => n <=? 0
      | _ => true
      end
  | Duplicate_isbn =>
      match get_book_by_isbn db isbn with
      | Some _ => true
      | None => false
      end
  end.

Definition rules_in_order : list Rule :=
  [Title_presence; Title_length; Author_presence; Author_length;
   Isbn_format; Copies_validity; Duplicate_isbn].

Definition field_rules : list Rule :=
  [Title_presence; Title_length; Author_presence; Author_length;
   Isbn_format; Copies_validity].

Definition first_failing_rule (db : Database) (title author isbn : string)
    (total_copies : Py.value) : option Rule :=
  find (rule_fails db title author isbn total_copies) rules_in_order.

Definition message_of_rule (r : Rule) : Message :=
  match r with
  | Title_presence => Title_required
  | Title_length => Title_too_long
  | Author_presence => Author_required
  | Author_length => Author_too_long
  | Isbn_format => Isbn_not_13
  | Copies_validity => Copies_not_positive
  | Duplicate_isbn => Isbn_exists
  end.






(** ** Sequences of calls *)

Inductive Request : Type :=
| Add (title author isbn : string) (total_copies : Py.value)
| Borrow (patron_id : string) (book_id : Z)
| Return (patron_id : string) (book_id : Z).

Definition serve (e : Env) (r : Request) (db : Database)
    : bool * Message * Database :=
  match r with
  | Add t a i n => add_book_to_catalog e db t a i n
  | Borrow p b => borrow_book_by_patron e db p b
  | Return p b => return_book_by_patron e db p b
  end.

(** The store after a sequence of calls, each in its own environment. *)
Fixpoint run (calls : list (Env * Request)) (db : Database) : Database :=
  match calls with
  | [] => db
  | (e, r) :: rest => run rest (snd (serve e r db))
  end.

Definition on_book (b : Z) (c : Env * Request) : bool :=
  match snd c with
  | Add _ _ _ _ => false
  | Borrow _ b' => b' =? b
  | Return _ b' => b' =? b
  end.

(** A borrow whose record is written also gets its decrement written. *)
Definition decrement_follows_record (c : Env * Request) : bool :=
  match snd c with
  | Borrow _ _ =>
      implb (insert_borrow_record_ok (fst c)) (update_book_availability_ok (fst c))
  | _ => true
  end.

Definition copies_within_bounds (db : Database) (b : Z) : bool :=
  match get_book_by_id db b with
  | Some bk =>
      (0 <=? available_copies bk) && (available_copies bk <=? total_copies bk)
  | None => false
  end.

(** Number of open loans of a book. *)
Definition count_open_loans (b : Z) (l : list BorrowRecord) : Z :=
  Z.of_nat (List.length (filter (fun r => is_open r && (book_id r =? b)) l)).

Definition open_loans_of_book (db : Database) (b : Z) : Z :=
  count_open_loans b (borrow_records db).

(** Every borrow record is of a book in the catalog. *)
Definition records_reference_books (db : Database) : Prop :=
  forall r, In r (borrow_records db) -> In (book_id r) (map id (books db)).

(** The accounting of one book: it is in the catalog with [total] copies, of
    which a non-negative number is available; when [strict], the available
    copies and the open loans together do not exceed the total. *)
Definition accounted (b total : Z) (strict : bool) (db : Database) : Prop :=
  exists bk : Book,
    get_book_by_id db b = Some bk
    /\ total_copies bk = total
    /\ 0 <= available_copies bk
    /\ (strict = true -> available_copies bk + open_loans_of_book db b <= total).

Definition sum_fees (l : list Q) : Q := fold_right Qplus 0%Q l.


(** The tiered schedule counted in half dollars. *)
Definition half_dollars (days : Z) : Z :=
  Z.min 30 (Z.min days 7 + 2 * Z.max 0 (days - 7)).

(** ** A small catalog to run the service on *)

(** Ten in the morning of 2026-11-04, every storage call succeeding. *)
Definition morning : datetime := 739924 * usec_per_day + 36000000000.

Definition fine_at (clock : datetime) : Env := mkEnv clock true true true true true.

Definition zzz_isbn : string := "1234567890123".

(** The catalog after [add("Zzz", "A", <13 digits>, 1)] on an empty store. *)
Definition zzz_catalog : Database :=
  snd (add_book_to_catalog (fine_at morning) init_database
                           "Zzz" "A" zzz_isbn (Py.Int 1)).

(** ... and after patron 123456 borrowed the book that morning. *)
Definition zzz_on_loan : Database :=
  snd (borrow_book_by_patron (fine_at morning) zzz_catalog "123456" 1).

(** A catalog with one book in nine copies, and patron 222222 holding five
    of them. *)
Definition nine_copies : Database :=
  snd (add_book_to_catalog (fine_at morning) init_database
                           "Dune" "Frank Herbert" "9780441013593" (Py.Int 9)).

Definition five_loans : Database :=
  run (repeat (fine_at morning, Borrow "222222" 1) 5) nine_copies.


(** ** Auxiliary notions for the further properties *)

(** A loan of the patron's list with its overdue flag taken at another
    moment. *)
Definition reflag (clock : datetime) (l : BorrowedBook) : BorrowedBook :=
  mkBorrowedBook (loan_book_id l) (loan_title l) (loan_author l)
                 (loan_borrow_date l) (loan_due_date l) (loan_due_date l <? clock).

(** ** services/payment_service.py *)

(** A [float] argument: a finite value, held exactly, or one of the special
    values. *)
Inductive pyfloat : Type :=
| Finite (x : Q)
| Nan
| Inf (negative : bool).

(** [amount <= 0]: false on [nan], as every comparison with it. *)
Definition float_le_zero (a : pyfloat) : bool :=
  match a with
  | Finite x => Qle_bool x 0
  | Nan => false
  | Inf negative => negative
  end.

(** [f'{amount:.2f}'] *)
Definition format_float_2f (a : pyfloat) : string :=
  match a with
  | Finite x => Py.format_2f x
  | Nan => "nan"
  | Inf negative => if negative then "-inf" else "inf"
  end.

(** What a method of the gateway does: it raises [ValueError] with a message,
    or returns its dictionary of [success] and [message]. *)
Inductive GatewayOutcome : Type :=
| Raises_ValueError (message : string)
| Returns (success : bool) (message : string).

Module PaymentGateway.

Definition process_payment (patron_id : string) (amount : option pyfloat)
    : GatewayOutcome :=
  match amount with
  | None => Raises_ValueError "Invalid payment amount."
  | Some a =>
      if float_le_zero a then Raises_ValueError "Invalid payment amount."
      else if negb (Py.truthy patron_id) || negb (Py.isdigit patron_id)
              || negb (Py.len patron_id =? 6) then
        Raises_ValueError "Invalid patron ID for payment."
      else
        Returns true ("Processed $" ++ format_float_2f a ++ " for patron "
                        ++ patron_id ++ ".")
  end.

Definition refund_payment (patron_id : string) (amount : option pyfloat)
    : GatewayOutcome :=
  match amount with
  | None => Raises_ValueError "Invalid refund amount."
  | Some a =>
      if float_le_zero a then Raises_ValueError "Invalid refund amount."
      else if negb (Py.truthy patron_id) || negb (Py.isdigit patron_id)
              || negb (Py.len patron_id =? 6) then
        Raises_ValueError "Invalid patron ID for refund."
      else
        Returns true ("Refunded $" ++ format_float_2f a ++ " to patron "
                        ++ patron_id ++ ".")
  end.

End PaymentGateway.

(** ** Counting for the further properties *)

(** Number of open loans a patron holds of a book. *)
Definition open_loans_of_pair (db : Database) (p : string) (b : Z) : Z :=
  Z.of_nat (List.length
              (filter (fun r => open_loan_of p r && (book_id r =? b))
                      (borrow_records db))).

(** ** What the service keeps true of its store *)

(** A string that does not begin with white space. *)
Definition no_leading_space (s : string) : Prop :=
  match s with
  | EmptyString => True
  | String c _ => Py.isspace c = false
  end.

(** A book as [add] stores it: a positive id and number of copies, an isbn of
    13 characters, a title and an author that are trimmed, not empty and within
    their lengths. *)
Definition well_formed_book (bk : Book) : Prop :=
  1 <= id bk
  /\ 0 < total_copies bk
  /\ Py.len (isbn bk) = 13
  /\ Py.strip (title bk) = title bk
  /\ title bk <> EmptyString
  /\ Py.len (title bk) <= 200
  /\ Py.strip (author bk) = author bk
  /\ author bk <> EmptyString
  /\ Py.len (author bk) <= 100.

(** A borrow record as [borrow] writes it: a valid patron id, a book of the
    catalog, and a due date 14 days after the borrow date. *)
Definition well_formed_record (db : Database) (r : BorrowRecord) : Prop :=
  invalid_patron_id (patron_id r) = false
  /\ In (book_id r) (map id (books db))
  /\ due_date r = plus_days (borrow_date r) 14.

Definition well_formed_store (db : Database) : Prop :=
  NoDup (map id (books db))
  /\ NoDup (map isbn (books db))
  /\ Forall well_formed_book (books db)
  /\ Forall (well_formed_record db) (borrow_records db)
  /\ (forall p, get_patron_borrow_count db p <= 6).

(** ** What a search looks for *)

(** The [WHERE] clause of a search, on one row. *)
Definition search_matches (search_term search_type : string) (b : Book) : bool :=
  if (search_type =? "isbn")%string then (isbn b =? Py.strip search_term)%string
  else Sqlite.like ("%" ++ Py.strip search_term ++ "%") (search_column search_type b).

(** A search that reaches its query and gets an answer. *)
Definition search_runs (e : Env) (search_term search_type : string) : Prop :=
  query_ok e = true
  /\ Py.strip search_term <> EmptyString
  /\ In search_type ["title"; "author"; "isbn"].


(** ** Reading a report *)

(** One line of the history, from a borrow record joined with its book. *)
Definition history_entry (record : BorrowRecord * Book) : HistoryEntry :=
  mkHistoryEntry
    (book_id (fst record)) (title (snd record))
    (author (snd record)) (isbn (snd record))
    (strftime_Ymd (borrow_date (fst record)))
    (strftime_Ymd (due_date (fst record)))
    (option_map strftime_Ymd (return_date (fst record)))
    (match return_date (fst record) with
     | Some _ => "Returned"
     | None => "Borrowed"
     end).

(** Number of lines of a history that say "Borrowed". *)
Definition count_borrowed (history : list HistoryEntry) : Z :=
  Z.of_nat (List.length
              (filter (fun h => (history_status h =? "Borrowed")%string) history)).

(** Newest borrow first. *)
Definition newer_first (x y : BorrowRecord * Book) : Prop :=
  (borrow_date (fst y) <=? borrow_date (fst x)) = true.


(** A borrow or return whose record is written also gets its change of the
    available copies written. *)
Definition availability_follows_record (c : Env * Request) : bool :=
  match snd c with
  | Add _ _ _ _ => true
  | Borrow _ _ =>
      implb (insert_borrow_record_ok (fst c)) (update_book_availability_ok (fst c))
  | Return _ _ =>
      implb (update_borrow_record_return_date_ok (fst c))
            (update_book_availability_ok (fst c))
  end.

(** The copies of every book are either available or on an open loan. *)
Definition balanced (db : Database) : Prop :=
  forall (b : Z) (bk : Book),
    get_book_by_id db b = Some bk ->
    available_copies bk + open_loans_of_book db b = total_copies bk.

(** ** The report's fees, loan by loan *)





(** * Properties *)

(** ** Arithmetic on money *)

(** Comparisons of rationals built from integers, as integer arithmetic. *)
Ltac q_lia :=
  unfold Qeq, Qle, Qlt in *;
  cbn [Qnum Qden Qplus Qmult Qminus Qopp inject_Z] in *; lia.

Lemma round_half_even_of_int (q : Q) (z : Z) :
  q == inject_Z z -> Py.round_half_even q = z.
Proof.
  destruct q as [n d]. unfold Qeq, Py.round_half_even.
  cbn [Qnum Qden inject_Z]. intros H.
  rewrite Z.mul_1_r in H. subst n.
  rewrite Z.div_mul, Z.mod_mul by discriminate.
  change (2 * 0) with 0. reflexivity.
Qed.

Lemma round2_of_cents (q : Q) (c : Z) :
  q == c # 100 -> Py.round2 q == q.
Proof.
  intros H. unfold Py.round2.
  rewrite (round_half_even_of_int (q * 100) c).
  - symmetry. exact H.
  - rewrite H. unfold Qeq. cbn [Qnum Qden Qmult inject_Z]. lia.
Qed.

Lemma round2_of_halves (q : Q) (h : Z) :
  q == h # 2 -> Py.round2 q == q.
Proof.
  intros H. apply (round2_of_cents q (50 * h)).
  rewrite H. unfold Qeq. cbn [Qnum Qden]. lia.
Qed.

Lemma spec_fee_in_halves (days : Z) :
  spec_fee days == half_dollars days # 2.
Proof.
  unfold spec_fee, half_dollars.
  destruct (Q.min_spec (inject_Z days) 7) as [[H1 E1] | [H1 E1]];
  destruct (Q.max_spec 0 (inject_Z days - 7)) as [[H2 E2] | [H2 E2]];
  rewrite E1, E2; clear E1 E2;
  match goal with |- Qmin ?a ?b == _ =>
    destruct (Q.min_spec a b) as [[H3 E3] | [H3 E3]]; rewrite E3; clear E3 end;
  q_lia.
Qed.

Lemma code_fee_in_halves (days : Z) :
  0 < days ->
  Py.min (if days <=? 7 then inject_Z days * (1 # 2)
          else 7 * (1 # 2) + inject_Z (days - 7) * 1) 15
  == half_dollars days # 2.
Proof.
  intros Hpos. unfold Py.min, half_dollars.
  destruct (days <=? 7) eqn:E;
    [apply Z.leb_le in E | apply Z.leb_gt in E];
    match goal with |- context [Qlt_le_dec ?a ?b] =>
      destruct (Qlt_le_dec a b) as [H | H] end;
    q_lia.
Qed.

Lemma round2_spec_fee (days : Z) :
  Py.round2 (spec_fee days) == half_dollars days # 2.
Proof.
  rewrite (round2_of_halves _ (half_dollars days)); apply spec_fee_in_halves.
Qed.

(** ** Calendar days *)

Lemma date_of_plus_days (t : datetime) (n : Z) :
  date_of (plus_days t n) = date_of t + n.
Proof.
  unfold date_of, plus_days. apply Z.div_add. discriminate.
Qed.

Lemma days_overdue_of_shifted_due (t : datetime) (n : Z) :
  spec_days_overdue (plus_days t n) t = Z.max 0 (- n).
Proof.
  unfold spec_days_overdue. rewrite date_of_plus_days. f_equal. lia.
Qed.

(** ** The fee calculator *)

(** What [calculate_late_fee_for_book] returns once its lookups succeeded,
    in terms of the loan it found. *)
Lemma calculate_late_fee_found (e : Env) (db : Database) (patron : string)
    (book : Z) (bk : Book) (loan : BorrowedBook) :
  invalid_patron_id patron = false ->
  get_book_by_id db book = Some bk ->
  find (fun borrowed => loan_book_id borrowed =? book)
       (get_patron_borrowed_books (now e) db patron) = Some loan ->
  let r := calculate_late_fee_for_book e db patron book in
  let days := spec_days_overdue (loan_due_date loan) (now e) in
  days_overdue r = days /\ fee_amount r == half_dollars days # 2.
Proof.
  intros Hp Hb Hl. unfold calculate_late_fee_for_book, spec_days_overdue.
  rewrite Hp, Hb, Hl.
  destruct (date_of (now e) <=? date_of (loan_due_date loan)) eqn:E.
  - apply Z.leb_le in E. cbn [days_overdue fee_amount].
    replace (Z.max 0 (date_of (now e) - date_of (loan_due_date loan))) with 0 by lia.
    split; reflexivity.
  - apply Z.leb_gt in E. cbn [days_overdue fee_amount].
    replace (Z.max 0 (date_of (now e) - date_of (loan_due_date loan)))
      with (date_of (now e) - date_of (loan_due_date loan)) by lia.
    split; [reflexivity|].
    rewrite (round2_of_halves _ (half_dollars (date_of (now e) - date_of (loan_due_date loan))));
      apply code_fee_in_halves; lia.
Qed.

(** The calculator never charges more than the cap. *)
Lemma calculate_late_fee_capped (e : Env) (db : Database) (patron : string) (book : Z) :
  (fee_amount (calculate_late_fee_for_book e db patron book) <= 15)%Q.
Proof.
  destruct (invalid_patron_id patron) eqn:Hp;
    [unfold calculate_late_fee_for_book; rewrite Hp; discriminate|].
  destruct (get_book_by_id db book) as [bk|] eqn:Hb;
    [|unfold calculate_late_fee_for_book; rewrite Hp, Hb; discriminate].
  destruct (find (fun borrowed => loan_book_id borrowed =? book)
                 (get_patron_borrowed_books (now e) db patron)) as [loan|] eqn:Hl;
    [|unfold calculate_late_fee_for_book; rewrite Hp, Hb, Hl; discriminate].
  destruct (calculate_late_fee_found e db patron book bk loan Hp Hb Hl) as [_ H].
  rewrite H. unfold half_dollars. q_lia.
Qed.

(** The calculator on a store with a single loan: whatever the due date and
    the clock, the fee is the tiered fee of the days between them. *)
Lemma late_fee_for_every_due_date (due clock : datetime) :
  let db := mkDatabase (books zzz_catalog)
                       [mkBorrowRecord "123456" 1 (plus_days due (-14)) due None] in
  let r := calculate_late_fee_for_book (fine_at clock) db "123456" 1 in
  days_overdue r = spec_days_overdue due clock
  /\ fee_amount r == Py.round2 (spec_fee (spec_days_overdue due clock)).
Proof.
  intros db r.
  destruct (calculate_late_fee_found
              (fine_at clock) db "123456" 1 (mkBook 1 "Zzz" "A" zzz_isbn 1 1)
              (mkBorrowedBook 1 "Zzz" "A" (plus_days due (-14)) due (due <? clock))
              eq_refl eq_refl eq_refl) as [Hd Hf].
  split; [exact Hd|]. rewrite round2_spec_fee. exact Hf.
Qed.

(** C1. Once the loan is found, the fee is
    [min(15.00, 0.50 * min(days,7) + 1.00 * max(0, days-7))] rounded to two
    decimals, with [days] the calendar days from the due date to now and
    never negative; a loan due 5, 7, 10 or 30 days ago costs 2.50, 3.50, 6.50
    or 15.00, and a loan due tomorrow, like every loan not yet due, costs 0.00
    with zero days overdue. *)
Theorem late_fee_follows_tiered_schedule
    (e : Env) (db : Database) (patron : string)
    (book : Z) (bk : Book) (loan : BorrowedBook) :
  invalid_patron_id patron = false ->
  get_book_by_id db book = Some bk ->
  find (fun borrowed => loan_book_id borrowed =? book)
       (get_patron_borrowed_books (now e) db patron) = Some loan ->
  let r := calculate_late_fee_for_book e db patron book in
  let due := loan_due_date loan in
  days_overdue r = spec_days_overdue due (now e)
  /\ fee_amount r == Py.round2 (spec_fee (spec_days_overdue due (now e)))
  /\ (due = plus_days (now e) (-5) -> days_overdue r = 5 /\ fee_amount r == 2.50)
  /\ (due = plus_days (now e) (-7) -> days_overdue r = 7 /\ fee_amount r == 3.50)
  /\ (due = plus_days (now e) (-10) -> days_overdue r = 10 /\ fee_amount r == 6.50)
  /\ (due = plus_days (now e) (-30) -> days_overdue r = 30 /\ fee_amount r == 15.00)
  /\ (due = plus_days (now e) 1 -> days_overdue r = 0 /\ fee_amount r == 0.00)
  /\ (date_of (now e) <= date_of due -> days_overdue r = 0 /\ fee_amount r == 0.00).
Proof.
  intros Hp Hb Hl r due.
  destruct (calculate_late_fee_found e db patron book bk loan Hp Hb Hl) as [Hd Hf].
  fold r in Hd, Hf. fold due in Hd, Hf.
  assert (shifted : forall n, due = plus_days (now e) n ->
            days_overdue r = Z.max 0 (- n)
            /\ fee_amount r == half_dollars (Z.max 0 (- n)) # 2).
  { intros n Hn. rewrite Hn in Hd, Hf.
    rewrite days_overdue_of_shifted_due in Hd, Hf. split; assumption. }
  split; [exact Hd|]. split; [rewrite Hf, round2_spec_fee; reflexivity|].
  repeat (split; [intros Hdue; destruct (shifted _ Hdue) as [Hd' Hf'];
                  split; [exact Hd' | rewrite Hf'; reflexivity]|]).
  intros Hdue. unfold spec_days_overdue in Hd, Hf.
  replace (Z.max 0 (date_of (now e) - date_of due)) with 0 in Hd, Hf by lia.
  split; [exact Hd | rewrite Hf; reflexivity].
Qed.

Lemma late_fee_follows_tiered_schedule_witness :
  let r := calculate_late_fee_for_book
             (fine_at (plus_days morning 24)) zzz_on_loan "123456" 1 in
  days_overdue r = 10 /\ fee_amount r == 6.50.
Proof.
  set (loan := mkBorrowedBook 1 "Zzz" "A" morning (plus_days morning 14) true).
  set (bk := mkBook 1 "Zzz" "A" zzz_isbn 1 0).
  pose proof (late_fee_follows_tiered_schedule
                (fine_at (plus_days morning 24)) zzz_on_loan "123456" 1 bk loan
                eq_refl eq_refl eq_refl) as H.
  destruct H as (_ & _ & _ & _ & H10 & _).
  exact (H10 eq_refl).
Defined.

(** ** Borrowing *)

Lemma borrow_count_after_insert (db : Database) (p q : string) (b : Z)
    (borrowed due : datetime) :
  get_patron_borrow_count
    (mkDatabase (books db)
                (borrow_records db ++ [mkBorrowRecord q b borrowed due None])) p
  = get_patron_borrow_count db p + (if (q =? p)%string then 1 else 0).
Proof.
  unfold get_patron_borrow_count. cbn [borrow_records].
  rewrite filter_app, length_app. cbn [filter open_loan_of is_open return_date patron_id andb].
  destruct (q =? p)%string; cbn [List.length]; lia.
Qed.

Lemma borrow_count_after_availability (ok : bool) (db : Database) (b delta : Z) (p : string) :
  get_patron_borrow_count (snd (update_book_availability ok db b delta)) p
  = get_patron_borrow_count db p.
Proof.
  unfold update_book_availability. destruct ok; reflexivity.
Qed.

(** The outcome of a borrow that passed the checks on patron, book,
    availability and limit, by the outcome of its two storage writes. *)
Lemma borrow_after_checks (e : Env) (db : Database) (patron : string)
    (book : Z) (bk : Book) :
  invalid_patron_id patron = false ->
  get_book_by_id db book = Some bk ->
  0 < available_copies bk ->
  get_patron_borrow_count db patron <= 5 ->
  borrow_book_by_patron e db patron book =
    let db1 := snd (insert_borrow_record true db patron book
                                         (now e) (plus_days (now e) 14)) in
    if negb (insert_borrow_record_ok e) then
      (false, Db_error_creating_borrow_record, db)
    else if negb (update_book_availability_ok e) then
      (false, Db_error_updating_availability, db1)
    else
      (true, Borrowed (title bk) (plus_days (now e) 14),
       snd (update_book_availability true db1 book (-1))).
Proof.
  intros Hp Hb Ha Hc. unfold borrow_book_by_patron. rewrite Hp, Hb.
  destruct (available_copies bk <=? 0) eqn:E; [apply Z.leb_le in E; lia|].
  destruct (5 <? get_patron_borrow_count db patron) eqn:E5;
    [apply Z.ltb_lt in E5; lia|].
  destruct (insert_borrow_record_ok e), (update_book_availability_ok e); reflexivity.
Qed.

(** C3. With a valid patron id and an available book, [borrow] answers with
    the limit message exactly when the patron's open loans number more than
    five: with exactly five the sixth borrow goes through, with six or more
    it is refused. *)
Theorem borrow_limit_is_more_than_five
    (e : Env) (db : Database) (patron : string) (book : Z) (bk : Book) :
  invalid_patron_id patron = false ->
  get_book_by_id db book = Some bk ->
  0 < available_copies bk ->
  let count := get_patron_borrow_count db patron in
  let result := borrow_book_by_patron e db patron book in
  (snd (fst result) = Borrowing_limit_reached <-> 5 < count)
  /\ (count = 5 ->
      insert_borrow_record_ok e = true ->
      update_book_availability_ok e = true ->
      fst (fst result) = true
      /\ get_patron_borrow_count (snd result) patron = 6)
  /\ (6 <= count -> result = (false, Borrowing_limit_reached, db)).
Proof.
  intros Hp Hb Ha count result.
  assert (Hover : 5 < count -> result = (false, Borrowing_limit_reached, db)).
  { intros H. unfold result, borrow_book_by_patron. rewrite Hp, Hb.
    destruct (available_copies bk <=? 0) eqn:E; [apply Z.leb_le in E; lia|].
    fold count. apply Z.ltb_lt in H. rewrite H. reflexivity. }
  split; [split|split].
  - intros Hm. destruct (Z.lt_ge_cases 5 count) as [H | H]; [exact H|].
    exfalso. unfold result in Hm.
    rewrite (borrow_after_checks e db patron book bk Hp Hb Ha) in Hm by (fold count; lia).
    cbv zeta in Hm.
    destruct (insert_borrow_record_ok e), (update_book_availability_ok e);
      discriminate Hm.
  - intros H. rewrite (Hover H). reflexivity.
  - intros H5 Hi Hu. unfold result.
    rewrite (borrow_after_checks e db patron book bk Hp Hb Ha) by (fold count; lia).
    cbv zeta. rewrite Hi, Hu. cbn [negb fst snd]. split; [reflexivity|].
    rewrite borrow_count_after_availability.
    cbn [insert_borrow_record snd]. rewrite borrow_count_after_insert.
    rewrite String.eqb_refl. fold count. lia.
  - intros H. apply Hover. lia.
Qed.

Lemma borrow_limit_is_more_than_five_witness :
  get_patron_borrow_count five_loans "222222" = 5
  /\ fst (fst (borrow_book_by_patron (fine_at morning) five_loans "222222" 1)) = true
  /\ get_patron_borrow_count
       (snd (borrow_book_by_patron (fine_at morning) five_loans "222222" 1))
       "222222" = 6.
Proof.
  pose proof (borrow_limit_is_more_than_five
                (fine_at morning) five_loans "222222" 1
                (mkBook 1 "Dune" "Frank Herbert" "9780441013593" 9 4)
                eq_refl eq_refl eq_refl) as H.
  destruct H as (_ & H5 & _).
  split; [reflexivity | exact (H5 eq_refl eq_refl eq_refl)].
Defined.

(** C6. When the borrow record cannot be created the call reports a storage
    error and leaves the store as it was, so no copy is taken; when the
    record is created and the decrement fails the call reports a storage
    error, the new record stays and the count of copies is untouched. *)
Theorem borrow_storage_failures
    (e : Env) (db : Database) (patron : string) (book : Z) (bk : Book) :
  invalid_patron_id patron = false ->
  get_book_by_id db book = Some bk ->
  0 < available_copies bk ->
  get_patron_borrow_count db patron <= 5 ->
  let result := borrow_book_by_patron e db patron book in
  (insert_borrow_record_ok e = false ->
   result = (false, Db_error_creating_borrow_record, db))
  /\ (insert_borrow_record_ok e = true ->
      update_book_availability_ok e = false ->
      fst result = (false, Db_error_updating_availability)
      /\ books (snd result) = books db
      /\ borrow_records (snd result)
         = (borrow_records db
              ++ [mkBorrowRecord patron book (now e) (plus_days (now e) 14) None])%list).
Proof.
  intros Hp Hb Ha Hc result. unfold result.
  rewrite (borrow_after_checks e db patron book bk Hp Hb Ha Hc). cbv zeta.
  split.
  - intros Hi. rewrite Hi. reflexivity.
  - intros Hi Hu. rewrite Hi, Hu. cbn. repeat split.
Qed.

Lemma borrow_storage_failures_witness :
  borrow_book_by_patron (mkEnv morning true false true true true)
                        zzz_catalog "123456" 1
  = (false, Db_error_creating_borrow_record, zzz_catalog)
  /\ (let result := borrow_book_by_patron (mkEnv morning true true true false true)
                                          zzz_catalog "123456" 1 in
      fst result = (false, Db_error_updating_availability)
      /\ books (snd result) = books zzz_catalog
      /\ borrow_records (snd result)
         = [mkBorrowRecord "123456" 1 morning (plus_days morning 14) None]).
Proof.
  split.
  - exact (proj1 (borrow_storage_failures
                    (mkEnv morning true false true true true) zzz_catalog "123456" 1
                    (mkBook 1 "Zzz" "A" zzz_isbn 1 1)
                    eq_refl eq_refl eq_refl ltac:(vm_compute; discriminate))
                 eq_refl).
  - exact (proj2 (borrow_storage_failures
                    (mkEnv morning true true true false true) zzz_catalog "123456" 1
                    (mkBook 1 "Zzz" "A" zzz_isbn 1 1)
                    eq_refl eq_refl eq_refl ltac:(vm_compute; discriminate))
                 eq_refl eq_refl).
Defined.

(** ** Adding a book *)

Lemma blank_after_strip (s : string) :
  negb (Py.truthy s) || negb (Py.truthy (Py.strip s))
  = (Py.strip s =? EmptyString)%string.
Proof.
  unfold Py.truthy. rewrite !negb_involutive.
  destruct s as [|c s]; [reflexivity|]. reflexivity.
Qed.

(** What [add] does, rule by rule, with the isbn rule as the code has it
    (a length check). *)
Lemma add_book_to_catalog_cases (e : Env) (db : Database)
    (t a i : string) (n : Py.value) :
  add_book_to_catalog e db t a i n =
    if (Py.strip t =? EmptyString)%string then (false, Title_required, db)
    else if 200 <? Py.len (Py.strip t) then (false, Title_too_long, db)
    else if (Py.strip a =? EmptyString)%string then (false, Author_required, db)
    else if 100 <? Py.len (Py.strip a) then (false, Author_too_long, db)
    else if negb (Py.len i =? 13) then (false, Isbn_not_13, db)
    else if rule_fails db t a i n Copies_validity then (false, Copies_not_positive, db)
    else if rule_fails db t a i n Duplicate_isbn then (false, Isbn_exists, db)
    else
      match n with
      | Py.Int copies =>
          if insert_book_ok e then
            (true, Book_added (Py.strip t),
             mkDatabase
               (books db ++ [mkBook (next_book_id db) (Py.strip t) (Py.strip a)
                                    i copies copies])
               (borrow_records db))
          else (false, Db_error_adding_book, db)
      | _ => (false, Copies_not_positive, db)
      end.
Proof.
  unfold add_book_to_catalog. rewrite !blank_after_strip.
  destruct (Py.strip t =? EmptyString)%string; [reflexivity|].
  destruct (200 <? Py.len (Py.strip t)); [reflexivity|].
  destruct (Py.strip a =? EmptyString)%string; [reflexivity|].
  destruct (100 <? Py.len (Py.strip a)); [reflexivity|].
  destruct (negb (Py.len i =? 13)); [reflexivity|].
  destruct n as [copies| | |]; cbn [rule_fails]; try reflexivity.
  destruct (copies <=? 0); [reflexivity|].
  destruct (get_book_by_isbn db i); [reflexivity|].
  unfold insert_book. destruct (insert_book_ok e); reflexivity.
Qed.

(** C4. The isbn check of [add] looks at the length only: an isbn of 13
    characters with a letter among them is not of the form the specification
    requires, and is accepted all the same. *)
Theorem add_accepts_isbn_with_a_letter :
  isbn_13_digits "123456789012A" = false
  /\ fst (add_book_to_catalog (fine_at morning) init_database
            "Valid Title" "Valid Author" "123456789012A" (Py.Int 1))
     = (true, Book_added "Valid Title").
Proof.
  split; reflexivity.
Qed.

(** The isbn check of [add] in general: the format message is returned for
    every isbn whose length is not 13 and for no other. *)
Lemma add_isbn_check_is_length_only (e : Env) (db : Database)
    (t a i : string) (n : Py.value) :
  rule_fails db t a i n Title_presence = false ->
  rule_fails db t a i n Title_length = false ->
  rule_fails db t a i n Author_presence = false ->
  rule_fails db t a i n Author_length = false ->
  (snd (fst (add_book_to_catalog e db t a i n)) = Isbn_not_13 <-> Py.len i <> 13).
Proof.
  cbn [rule_fails]. intros H1 H2 H3 H4.
  rewrite add_book_to_catalog_cases, H1, H2, H3, H4.
  destruct (Py.len i =? 13) eqn:E; cbn [negb].
  - apply Z.eqb_eq in E. split; [|intros H; contradiction].
    intros H. exfalso.
    destruct (rule_fails db t a i n Copies_validity); [discriminate H|].
    destruct (rule_fails db t a i n Duplicate_isbn); [discriminate H|].
    destruct n; try discriminate H.
    destruct (insert_book_ok e); discriminate H.
  - apply Z.eqb_neq in E. split; [intros _; exact E | reflexivity].
Qed.

(** C5. On every isbn for which the length check and the 13-digit rule
    agree, a call that breaks a rule is rejected with the message of the first
    rule it breaks, in the order title presence, title length, author
    presence, author length, isbn format, copies validity, duplicate isbn, and
    the store is untouched; a call that breaks none is accepted when the
    insert succeeds and rejected with the storage message when it fails.
    So, past the field rules, [add] is rejected exactly when the isbn is taken
    or the insert fails. *)
Theorem add_reports_first_failing_rule
    (e : Env) (db : Database) (t a i : string) (n : Py.value) :
  isbn_13_digits i = (Py.len i =? 13) ->
  let result := add_book_to_catalog e db t a i n in
  match first_failing_rule db t a i n with
  | Some r => result = (false, message_of_rule r, db)
  | None =>
      if insert_book_ok e then
        exists copies,
          n = Py.Int copies
          /\ result
             = (true, Book_added (Py.strip t),
                mkDatabase
                  (books db ++ [mkBook (next_book_id db) (Py.strip t) (Py.strip a)
                                       i copies copies])
                  (borrow_records db))
      else result = (false, Db_error_adding_book, db)
  end
  /\ (forallb (fun r => negb (rule_fails db t a i n r)) field_rules = true ->
      (fst (fst result) = false
       <-> get_book_by_isbn db i <> None \/ insert_book_ok e = false)).
Proof.
  intros Hisbn result. unfold result, first_failing_rule, rules_in_order, field_rules.
  rewrite add_book_to_catalog_cases.
  cbn [find forallb rule_fails]. rewrite Hisbn.
  destruct (Py.strip t =? EmptyString)%string;
    [split; [reflexivity | discriminate]|].
  destruct (200 <? Py.len (Py.strip t));
    [split; [reflexivity | discriminate]|].
  destruct (Py.strip a =? EmptyString)%string;
    [split; [reflexivity | discriminate]|].
  destruct (100 <? Py.len (Py.strip a));
    [split; [reflexivity | discriminate]|].
  destruct (negb (Py.len i =? 13));
    [split; [reflexivity | discriminate]|].
  destruct n as [copies| | |];
    try (split; [reflexivity | discriminate]).
  destruct (copies <=? 0); [split; [reflexivity | discriminate]|].
  destruct (get_book_by_isbn db i) as [existing|].
  - split; [reflexivity|]. intros _. cbn [fst].
    split; [intros _; left; discriminate | reflexivity].
  - destruct (insert_book_ok e).
    + split; [exists copies; split; reflexivity|]. intros _. cbn [fst].
      split; [discriminate | intros [H | H]; [contradiction | discriminate]].
    + split; [reflexivity|]. intros _. cbn [fst].
      split; [intros _; right; reflexivity | reflexivity].
Qed.

Lemma add_reports_first_failing_rule_witness :
  add_book_to_catalog (fine_at morning) zzz_catalog "Again" "B" zzz_isbn (Py.Int 2)
  = (false, Isbn_exists, zzz_catalog).
Proof.
  exact (proj1 (add_reports_first_failing_rule
                  (fine_at morning) zzz_catalog "Again" "B" zzz_isbn (Py.Int 2)
                  eq_refl)).
Defined.

(** C5 as first stated fails: a call that breaks no rule, on a store where
    the isbn is free, is rejected when the insert fails, with a message that
    belongs to no rule. *)
Lemma add_rejected_without_failing_rule :
  let e := mkEnv morning false true true true true in
  first_failing_rule init_database "Zzz" "A" zzz_isbn (Py.Int 1) = None
  /\ get_book_by_isbn init_database zzz_isbn = None
  /\ fst (add_book_to_catalog e init_database "Zzz" "A" zzz_isbn (Py.Int 1))
     = (false, Db_error_adding_book)
  /\ (forall r, message_of_rule r <> Db_error_adding_book).
Proof.
  repeat split; try reflexivity. intros r; destruct r; discriminate.
Qed.

(** ** Returning *)

(** A return that succeeded found the book and an open loan of it, wrote both
    updates, and chose its message by comparing calendar dates. *)
Lemma return_success_inversion (e : Env) (db db' : Database)
    (patron : string) (book : Z) (m : Message) :
  return_book_by_patron e db patron book = (true, m, db') ->
  exists (bk : Book) (loan : BorrowedBook),
    invalid_patron_id patron = false
    /\ get_book_by_id db book = Some bk
    /\ find (fun borrowed => loan_book_id borrowed =? book)
            (get_patron_borrowed_books (now e) db patron) = Some loan
    /\ m = (if date_of (loan_due_date loan) <? date_of (now e) then
              Returned_late (date_of (now e) - date_of (loan_due_date loan))
                            (inject_Z (date_of (now e) - date_of (loan_due_date loan))
                             * (1 # 2))
            else Returned (title bk))
    /\ db' = snd (update_book_availability true
                    (snd (update_borrow_record_return_date true db patron book (now e)))
                    book 1).
Proof.
  unfold return_book_by_patron.
  destruct (invalid_patron_id patron); [discriminate|].
  destruct (get_book_by_id db book) as [bk|]; [|discriminate].
  destruct (find (fun borrowed => loan_book_id borrowed =? book)
                 (get_patron_borrowed_books (now e) db patron)) as [loan|];
    [|discriminate].
  destruct (update_borrow_record_return_date_ok e); [|discriminate].
  destruct (update_book_availability_ok e); [|discriminate].
  cbn [update_borrow_record_return_date update_book_availability negb fst snd].
  cbv zeta.
  destruct (date_of (loan_due_date loan) <? date_of (now e)) eqn:E;
    intros H; injection H as <- <-; exists bk, loan;
    repeat split; rewrite ?E; reflexivity.
Qed.

(** C7. A return that succeeds on a calendar date after the calendar date of
    the loan's due date reports the difference of the two calendar dates as
    the days late, and half a dollar for each of them; any other successful
    return reports an on-time return and no fee. *)
Theorem return_reports_calendar_days_late
    (e : Env) (db db' : Database) (patron : string) (book : Z) (m : Message) :
  return_book_by_patron e db patron book = (true, m, db') ->
  exists (bk : Book) (loan : BorrowedBook),
    get_book_by_id db book = Some bk
    /\ find (fun borrowed => loan_book_id borrowed =? book)
            (get_patron_borrowed_books (now e) db patron) = Some loan
    /\ let due := loan_due_date loan in
       let days_late := date_of (now e) - date_of due in
       (date_of due < date_of (now e) ->
        m = Returned_late days_late (inject_Z days_late * (1 # 2)))
       /\ (date_of (now e) <= date_of due -> m = Returned (title bk)).
Proof.
  intros H.
  destruct (return_success_inversion e db db' patron book m H)
    as (bk & loan & _ & Hb & Hl & Hm & _).
  exists bk, loan. split; [exact Hb|]. split; [exact Hl|]. cbv zeta.
  split; intros Hd; rewrite Hm.
  - apply Z.ltb_lt in Hd. rewrite Hd. reflexivity.
  - destruct (date_of (loan_due_date loan) <? date_of (now e)) eqn:E;
      [apply Z.ltb_lt in E; lia | reflexivity].
Qed.

Lemma return_reports_calendar_days_late_witness :
  exists (bk : Book) (loan : BorrowedBook),
    get_book_by_id zzz_on_loan 1 = Some bk
    /\ find (fun borrowed => loan_book_id borrowed =? 1)
            (get_patron_borrowed_books (plus_days morning 20) zzz_on_loan "123456")
       = Some loan
    /\ let due := loan_due_date loan in
       let days_late := date_of (plus_days morning 20) - date_of due in
       (date_of due < date_of (plus_days morning 20) ->
        Returned_late 6 (inject_Z 6 * (1 # 2))
        = Returned_late days_late (inject_Z days_late * (1 # 2)))
       /\ (date_of (plus_days morning 20) <= date_of due ->
           Returned_late 6 (inject_Z 6 * (1 # 2)) = Returned (title bk)).
Proof.
  exact (return_reports_calendar_days_late
           (fine_at (plus_days morning 20)) zzz_on_loan
           (snd (return_book_by_patron (fine_at (plus_days morning 20))
                                       zzz_on_loan "123456" 1))
           "123456" 1 (Returned_late 6 (inject_Z 6 * (1 # 2))) eq_refl).
Defined.

(** Lateness counts calendar days, not elapsed hours: a book due at 23:00 and
    returned two hours later, past midnight, is one day late; returned 22 hours
    after a due time of 01:00, the same day, it is on time. *)
Example two_hours_past_midnight_is_a_day_late :
  let hour := 3600000000 in
  let due := 739938 * usec_per_day + 23 * hour in
  let db := mkDatabase (books zzz_catalog)
                       [mkBorrowRecord "123456" 1 (plus_days due (-14)) due None] in
  fst (return_book_by_patron (fine_at (due + 2 * hour)) db "123456" 1)
  = (true, Returned_late 1 (inject_Z 1 * (1 # 2)))
  /\ render (Returned_late 1 (inject_Z 1 * (1 # 2)))
     = "Book returned successfully but 1 days late. Late fee: $0.50".
Proof.
  split; reflexivity.
Qed.

Example same_day_22_hours_later_is_on_time :
  let hour := 3600000000 in
  let due := 739938 * usec_per_day + 1 * hour in
  let db := mkDatabase (books zzz_catalog)
                       [mkBorrowRecord "123456" 1 (plus_days due (-14)) due None] in
  fst (return_book_by_patron (fine_at (due + 22 * hour)) db "123456" 1)
  = (true, Returned "Zzz").
Proof.
  reflexivity.
Qed.

(** The [.2f] text of a fee of [d] half dollars: whole dollars, then 00 or
    50 cents. *)
Lemma format_half_dollars (d : Z) :
  0 <= d ->
  Py.format_2f (inject_Z d * (1 # 2))
  = Py.str (d / 2) ++ "." ++ (if Z.even d then "00" else "50").
Proof.
  intros Hd. unfold Py.format_2f.
  rewrite (round_half_even_of_int (inject_Z d * (1 # 2) * 100) (50 * d))
    by (unfold Qeq; cbn [Qnum Qden Qmult inject_Z]; lia).
  destruct (50 * d <? 0) eqn:E; [apply Z.ltb_lt in E; lia|].
  rewrite Z.abs_eq by lia.
  replace (50 * d / 100) with (d / 2)
    by (change 100 with (50 * 2); rewrite Z.div_mul_cancel_l; lia).
  replace (50 * d mod 100) with (50 * (d mod 2))
    by (change 100 with (50 * 2); rewrite Z.mul_mod_distr_l; lia).
  rewrite Zmod_even. destruct (Z.even d); reflexivity.
Qed.

Example borrow_message_text :
  render (snd (fst (borrow_book_by_patron (fine_at morning) zzz_catalog "123456" 1)))
  = "Successfully borrowed " ++ dquote ++ "Zzz" ++ dquote ++ ". Due date: 2026-11-18.".
Proof.
  reflexivity.
Qed.

(** A return can be any number of days late: on a store with a single loan,
    returning [d] days after the due date reports [d] days and [d] half
    dollars. *)
Lemma return_of_any_lateness (due : datetime) (d : Z) :
  0 < d ->
  let db := mkDatabase (books zzz_catalog)
                       [mkBorrowRecord "123456" 1 (plus_days due (-14)) due None] in
  fst (return_book_by_patron (fine_at (plus_days due d)) db "123456" 1)
  = (true, Returned_late d (inject_Z d * (1 # 2))).
Proof.
  intros Hd db. unfold return_book_by_patron.
  change (invalid_patron_id "123456") with false. cbv iota.
  change (get_book_by_id db 1) with (Some (mkBook 1 "Zzz" "A" zzz_isbn 1 1)).
  cbv iota beta.
  change (get_patron_borrowed_books (now (fine_at (plus_days due d))) db "123456")
    with [mkBorrowedBook 1 "Zzz" "A" (plus_days due (-14)) due
                         (due <? plus_days due d)].
  cbn [find loan_book_id Z.eqb Pos.eqb loan_due_date fine_at now
       update_borrow_record_return_date_ok update_book_availability_ok
       update_borrow_record_return_date update_book_availability negb fst snd].
  cbv zeta. rewrite date_of_plus_days.
  replace (date_of due + d - date_of due) with d by lia.
  destruct (date_of due <? date_of due + d) eqn:E; [reflexivity|].
  apply Z.ltb_ge in E. lia.
Qed.

(** C10. The fee reported at return time has no ceiling: a return [days]
    calendar days late reports exactly [days * 0.50], and past 30 days that
    is more than the 15.00 the fee calculator gives for the same loan at the
    same moment. *)
Theorem return_fee_is_uncapped
    (e : Env) (db db' : Database) (patron : string) (book : Z)
    (days : Z) (fee : Q) :
  return_book_by_patron e db patron book = (true, Returned_late days fee, db') ->
  (exists loan : BorrowedBook,
      find (fun borrowed => loan_book_id borrowed =? book)
           (get_patron_borrowed_books (now e) db patron) = Some loan
      /\ days = date_of (now e) - date_of (loan_due_date loan))
  /\ 0 < days
  /\ fee = (inject_Z days * (1 # 2))%Q
  /\ (30 < days ->
      (15 < fee)%Q
      /\ fee_amount (calculate_late_fee_for_book e db patron book) == 15).
Proof.
  intros H.
  destruct (return_success_inversion e db db' patron book _ H)
    as (bk & loan & Hp & Hb & Hl & Hm & _).
  destruct (date_of (loan_due_date loan) <? date_of (now e)) eqn:E;
    [|discriminate Hm].
  apply Z.ltb_lt in E. injection Hm as -> ->.
  split; [exists loan; split; [exact Hl | reflexivity]|].
  split; [lia|]. split; [reflexivity|].
  intros Hd. split; [q_lia|].
  destruct (calculate_late_fee_found e db patron book bk loan Hp Hb Hl) as [_ Hf].
  rewrite Hf. unfold spec_days_overdue, half_dollars. q_lia.
Qed.

Lemma return_fee_is_uncapped_witness :
  (15 < inject_Z 31 * (1 # 2))%Q
  /\ fee_amount (calculate_late_fee_for_book (fine_at (plus_days morning 45))
                                             zzz_on_loan "123456" 1) == 15.
Proof.
  pose proof (return_fee_is_uncapped
                (fine_at (plus_days morning 45)) zzz_on_loan
                (snd (return_book_by_patron (fine_at (plus_days morning 45))
                                            zzz_on_loan "123456" 1))
                "123456" 1 31 (inject_Z 31 * (1 # 2)) eq_refl) as H.
  destruct H as (_ & _ & _ & H31).
  exact (H31 eq_refl).
Defined.

(** ** Accounting of copies *)

Section StorageEffects.

Variables (db : Database) (b : Z).

Lemma shift_available_id (b' delta : Z) (bk : Book) :
  id (shift_available b' delta bk) = id bk.
Proof.
  unfold shift_available. destruct (id bk =? b'); reflexivity.
Qed.

Lemma get_book_after_shift (b' delta : Z) (l : list Book) :
  find (fun x => id x =? b) (map (shift_available b' delta) l)
  = option_map (shift_available b' delta) (find (fun x => id x =? b) l).
Proof.
  induction l as [|x l IH]; [reflexivity|].
  cbn [map find]. rewrite shift_available_id.
  destruct (id x =? b); [reflexivity | exact IH].
Qed.

Lemma get_book_by_id_has_id (bk : Book) :
  get_book_by_id db b = Some bk -> id bk = b.
Proof.
  intros H. apply find_some in H. apply Z.eqb_eq. exact (proj2 H).
Qed.

Lemma get_book_by_id_known :
  get_book_by_id db b <> None <-> In b (map id (books db)).
Proof.
  unfold get_book_by_id. split.
  - destruct (find (fun x => id x =? b) (books db)) as [bk|] eqn:E;
      [|intros H; contradiction].
    intros _. apply find_some in E. destruct E as [Hin Hid].
    apply Z.eqb_eq in Hid. subst b. apply in_map. exact Hin.
  - intros Hin E. apply in_map_iff in Hin. destruct Hin as (bk & Hid & Hin).
    pose proof (find_none _ _ E bk Hin) as H. cbv beta in H.
    apply Z.eqb_neq in H. contradiction.
Qed.

Lemma ids_below_next (i : Z) :
  In i (map id (books db)) -> i < next_book_id db.
Proof.
  unfold next_book_id. induction (books db) as [|x l IH]; [contradiction|].
  cbn [map In fold_right]. intros [H | H]; [|specialize (IH H)]; lia.
Qed.

Lemma next_book_id_is_fresh : ~ In (next_book_id db) (map id (books db)).
Proof.
  intros H. apply ids_below_next in H. lia.
Qed.

Lemma count_open_loans_app (l1 l2 : list BorrowRecord) :
  count_open_loans b (l1 ++ l2) = count_open_loans b l1 + count_open_loans b l2.
Proof.
  unfold count_open_loans. rewrite filter_app, length_app. lia.
Qed.

Lemma count_open_loans_nonneg (l : list BorrowRecord) : 0 <= count_open_loans b l.
Proof.
  unfold count_open_loans. lia.
Qed.

(** Closing the first open loan of a pair removes one open loan of that
    book, and none of any other book. *)
Lemma count_open_loans_after_close (p : string) (b' : Z) (returned : datetime)
    (l : list BorrowRecord) :
  (exists r, In r l /\ open_loan_of p r = true /\ book_id r = b') ->
  count_open_loans b (close_first_loan p b' returned l)
  = count_open_loans b l - (if b' =? b then 1 else 0).
Proof.
  induction l as [|x l IH]; intros (r & Hin & Hopen & Hbook);
    [contradiction|].
  cbn [close_first_loan].
  destruct (open_loan_of p x && (book_id x =? b')) eqn:E.
  - apply andb_true_iff in E. destruct E as [Ho Hb]. apply Z.eqb_eq in Hb.
    unfold open_loan_of in Ho. apply andb_true_iff in Ho. destruct Ho as [Ho _].
    unfold count_open_loans. cbn [filter is_open return_date book_id andb].
    rewrite Ho, Hb. cbn [andb].
    destruct (b' =? b); cbn [List.length]; lia.
  - assert (Hrest : exists r0, In r0 l /\ open_loan_of p r0 = true /\ book_id r0 = b').
    { destruct Hin as [-> | Hin]; [|exists r; auto].
      rewrite Hopen, Hbook, Z.eqb_refl in E. discriminate E. }
    specialize (IH Hrest). unfold count_open_loans in *. cbn [filter].
    destruct (is_open x && (book_id x =? b)); cbn [List.length]; lia.
Qed.

Lemma close_first_loan_books (p : string) (b' : Z) (returned : datetime)
    (l : list BorrowRecord) (r : BorrowRecord) :
  In r (close_first_loan p b' returned l) ->
  exists r0, In r0 l /\ book_id r0 = book_id r.
Proof.
  induction l as [|x l IH]; [contradiction|]. cbn [close_first_loan].
  destruct (open_loan_of p x && (book_id x =? b')).
  - intros [<- | H]; [exists x | exists r]; split; auto using in_eq, in_cons.
  - intros [<- | H]; [exists x; split; auto using in_eq|].
    destruct (IH H) as (r0 & Hin & Hb). exists r0. split; auto using in_cons.
Qed.

(** A loan found in the patron's list is an open record of the store. *)
Lemma found_loan_is_open_record (clock : datetime) (p : string) (loan : BorrowedBook) :
  find (fun borrowed => loan_book_id borrowed =? b)
       (get_patron_borrowed_books clock db p) = Some loan ->
  exists r, In r (borrow_records db) /\ open_loan_of p r = true /\ book_id r = b.
Proof.
  intros H. apply find_some in H. destruct H as [Hin Hb]. apply Z.eqb_eq in Hb.
  unfold get_patron_borrowed_books in Hin. apply in_flat_map in Hin.
  destruct Hin as (r & Hr & Hin). exists r.
  destruct (open_loan_of p r) eqn:Ho; [|contradiction].
  destruct (get_book_by_id db (book_id r)); [|contradiction].
  destruct Hin as [<- | []]. cbn [loan_book_id] in Hb. auto.
Qed.

End StorageEffects.

(** The store after a borrow: untouched, or with the record of a book that had
    a copy available, and one copy fewer when the decrement is written too. *)
Lemma borrow_store_cases (e : Env) (db : Database) (patron : string) (book : Z) :
  snd (borrow_book_by_patron e db patron book) = db
  \/ exists bk,
       get_book_by_id db book = Some bk
       /\ 0 < available_copies bk
       /\ insert_borrow_record_ok e = true
       /\ snd (borrow_book_by_patron e db patron book)
          = let db1 := mkDatabase (books db)
                         (borrow_records db
                            ++ [mkBorrowRecord patron book (now e)
                                               (plus_days (now e) 14) None]) in
            if update_book_availability_ok e then
              mkDatabase (map (shift_available book (-1)) (books db1))
                         (borrow_records db1)
            else db1.
Proof.
  unfold borrow_book_by_patron.
  destruct (invalid_patron_id patron); [left; reflexivity|].
  destruct (get_book_by_id db book) as [bk|]; [|left; reflexivity].
  destruct (available_copies bk <=? 0) eqn:Ea; [left; reflexivity|].
  destruct (5 <? get_patron_borrow_count db patron); [left; reflexivity|].
  destruct (insert_borrow_record_ok e); [|left; reflexivity].
  right. exists bk. apply Z.leb_gt in Ea.
  repeat split; [exact Ea|].
  cbn. destruct (update_book_availability_ok e); reflexivity.
Qed.

(** The store after a return: untouched, or with an open loan of the pair
    closed, and one copy more when the increment is written too. *)
Lemma return_store_cases (e : Env) (db : Database) (patron : string) (book : Z) :
  snd (return_book_by_patron e db patron book) = db
  \/ (exists r, In r (borrow_records db)
                /\ open_loan_of patron r = true /\ book_id r = book)
     /\ snd (return_book_by_patron e db patron book)
        = let db1 := mkDatabase (books db)
                       (close_first_loan patron book (now e) (borrow_records db)) in
          if update_book_availability_ok e then
            mkDatabase (map (shift_available book 1) (books db1))
                       (borrow_records db1)
          else db1.
Proof.
  unfold return_book_by_patron.
  destruct (invalid_patron_id patron); [left; reflexivity|].
  destruct (get_book_by_id db book) as [bk|]; [|left; reflexivity].
  destruct (find (fun borrowed => loan_book_id borrowed =? book)
                 (get_patron_borrowed_books (now e) db patron)) as [loan|] eqn:El;
    [|left; reflexivity].
  destruct (update_borrow_record_return_date_ok e); [|left; reflexivity].
  right. split; [exact (found_loan_is_open_record db book (now e) patron loan El)|].
  cbn. destruct (update_book_availability_ok e); cbn;
    [destruct (date_of (loan_due_date loan) <? date_of (now e))|]; reflexivity.
Qed.

(** The store after an add: untouched, or with one more book under a fresh
    id, all its copies available. *)
Lemma add_store_cases (e : Env) (db : Database) (t a i : string) (n : Py.value) :
  snd (add_book_to_catalog e db t a i n) = db
  \/ exists copies,
       n = Py.Int copies /\ 0 < copies
       /\ fst (add_book_to_catalog e db t a i n) = (true, Book_added (Py.strip t))
       /\ snd (add_book_to_catalog e db t a i n)
          = mkDatabase
              (books db ++ [mkBook (next_book_id db) (Py.strip t) (Py.strip a)
                                   i copies copies])
              (borrow_records db).
Proof.
  rewrite add_book_to_catalog_cases.
  destruct (Py.strip t =? EmptyString)%string; [left; reflexivity|].
  destruct (200 <? Py.len (Py.strip t)); [left; reflexivity|].
  destruct (Py.strip a =? EmptyString)%string; [left; reflexivity|].
  destruct (100 <? Py.len (Py.strip a)); [left; reflexivity|].
  destruct (negb (Py.len i =? 13)); [left; reflexivity|].
  destruct (rule_fails db t a i n Copies_validity) eqn:Ec; [left; reflexivity|].
  destruct (rule_fails db t a i n Duplicate_isbn); [left; reflexivity|].
  destruct n as [copies| | |]; try (left; reflexivity).
  destruct (insert_book_ok e); [|left; reflexivity].
  right. exists copies. cbn [rule_fails] in Ec. apply Z.leb_gt in Ec.
  repeat split. exact Ec.
Qed.

Lemma shift_available_total (b delta : Z) (bk : Book) :
  total_copies (shift_available b delta bk) = total_copies bk.
Proof.
  unfold shift_available. destruct (id bk =? b); reflexivity.
Qed.

Lemma shift_available_copies (b delta : Z) (bk : Book) :
  available_copies (shift_available b delta bk)
  = available_copies bk + (if id bk =? b then delta else 0).
Proof.
  unfold shift_available. destruct (id bk =? b); cbn [available_copies]; lia.
Qed.

Lemma find_in_longer_list {A : Type} (f : A -> bool) (l l' : list A) (x : A) :
  find f l = Some x -> find f (l ++ l') = Some x.
Proof.
  induction l as [|y l IH]; [discriminate|]. cbn [find app].
  destruct (f y); [trivial | exact IH].
Qed.

(** Every call keeps the accounting of every book: the lower bound always,
    the upper bound as long as no borrow loses its decrement. *)
Lemma serve_preserves_accounting (b total : Z) (strict : bool)
    (e : Env) (r : Request) (db : Database) :
  accounted b total strict db ->
  (strict = true -> decrement_follows_record (e, r) = true) ->
  accounted b total strict (snd (serve e r db)).
Proof.
  intros (bk & Hget & Htot & Hlow & Hup) Hdec.
  pose proof (get_book_by_id_has_id db b bk Hget) as Hid.
  destruct r as [t a i n | p b' | p b']; cbn [serve].
  - (* add *)
    destruct (add_store_cases e db t a i n) as [-> | (copies & _ & _ & _ & ->)];
      [exists bk; auto|].
    exists bk. split; [|auto].
    unfold get_book_by_id. cbn [books]. apply find_in_longer_list. exact Hget.
  - (* borrow *)
    destruct (borrow_store_cases e db p b')
      as [-> | (bk' & Hget' & Havail & Hins & ->)]; [exists bk; auto|].
    cbv zeta. cbn [books borrow_records].
    destruct (update_book_availability_ok e) eqn:Hupd.
    + exists (shift_available b' (-1) bk).
      unfold get_book_by_id, open_loans_of_book. cbn [books borrow_records].
      rewrite get_book_after_shift. fold (get_book_by_id db b). rewrite Hget.
      rewrite shift_available_total, shift_available_copies, count_open_loans_app.
      unfold count_open_loans at 2. cbn [filter is_open return_date book_id andb].
      rewrite Hid, (Z.eqb_sym b b').
      split; [reflexivity|]. split; [exact Htot|].
      destruct (b' =? b) eqn:Eb.
      * apply Z.eqb_eq in Eb. subst b'. rewrite Hget in Hget'.
        injection Hget' as <-. cbn [List.length].
        split; [lia|]. intros Hs. specialize (Hup Hs).
        unfold open_loans_of_book in Hup. lia.
      * cbn [List.length]. split; [lia|]. intros Hs. specialize (Hup Hs).
        unfold open_loans_of_book in Hup. lia.
    + exists bk. unfold get_book_by_id, open_loans_of_book.
      cbn [books borrow_records]. fold (get_book_by_id db b).
      split; [exact Hget|]. split; [exact Htot|]. split; [exact Hlow|].
      intros Hs. specialize (Hdec Hs).
      unfold decrement_follows_record in Hdec. cbn [fst snd] in Hdec.
      rewrite Hins, Hupd in Hdec. discriminate Hdec.
  - (* return *)
    destruct (return_store_cases e db p b') as [-> | (Hopen & ->)];
      [exists bk; auto|].
    cbv zeta. cbn [books borrow_records].
    pose proof (count_open_loans_after_close b p b' (now e) (borrow_records db) Hopen)
      as Hcount.
    pose proof (count_open_loans_nonneg b
                  (close_first_loan p b' (now e) (borrow_records db))) as Hnonneg.
    destruct (update_book_availability_ok e).
    + exists (shift_available b' 1 bk).
      unfold get_book_by_id, open_loans_of_book. cbn [books borrow_records].
      rewrite get_book_after_shift. fold (get_book_by_id db b). rewrite Hget.
      rewrite shift_available_total, shift_available_copies, Hcount.
      rewrite Hid, (Z.eqb_sym b b').
      split; [reflexivity|]. split; [exact Htot|].
      destruct (b' =? b); (split; [lia|]); intros Hs; specialize (Hup Hs);
        unfold open_loans_of_book in Hup; lia.
    + exists bk. unfold get_book_by_id, open_loans_of_book.
      cbn [books borrow_records]. fold (get_book_by_id db b).
      split; [exact Hget|]. split; [exact Htot|]. split; [exact Hlow|].
      intros Hs. specialize (Hup Hs). unfold open_loans_of_book in Hup.
      rewrite Hcount. destruct (b' =? b); lia.
Qed.

Lemma run_preserves_accounting (b total : Z) (strict : bool)
    (calls : list (Env * Request)) :
  forall db : Database,
    accounted b total strict db ->
    (strict = true -> forallb decrement_follows_record calls = true) ->
    accounted b total strict (run calls db).
Proof.
  induction calls as [|[e r] calls IH]; intros db Hacc Hdec; [exact Hacc|].
  cbn [run]. apply IH.
  - apply serve_preserves_accounting; [exact Hacc|].
    intros Hs. specialize (Hdec Hs). cbn [forallb] in Hdec.
    apply andb_true_iff in Hdec. tauto.
  - intros Hs. specialize (Hdec Hs). cbn [forallb] in Hdec.
    apply andb_true_iff in Hdec. tauto.
Qed.

(** Borrow records only ever name books of the catalog. *)
Lemma serve_preserves_references (e : Env) (r : Request) (db : Database) :
  records_reference_books db -> records_reference_books (snd (serve e r db)).
Proof.
  unfold records_reference_books. intros Href.
  assert (Hids : forall b delta, map id (map (shift_available b delta) (books db))
                                 = map id (books db)).
  { intros b delta. rewrite map_map. apply map_ext. intros bk.
    apply shift_available_id. }
  destruct r as [t a i n | p b' | p b']; cbn [serve].
  - destruct (add_store_cases e db t a i n) as [-> | (copies & _ & _ & _ & ->)];
      [exact Href|].
    cbn [books borrow_records]. intros r Hr. rewrite map_app. apply in_or_app.
    left. auto.
  - destruct (borrow_store_cases e db p b')
      as [-> | (bk' & Hget' & _ & _ & ->)]; [exact Href|].
    assert (Hknown : In b' (map id (books db))).
    { apply get_book_by_id_known. rewrite Hget'. discriminate. }
    cbv zeta. destruct (update_book_availability_ok e);
      cbn [books borrow_records]; rewrite ?Hids; intros r Hr;
      apply in_app_or in Hr; destruct Hr as [Hr | [<- | []]]; auto.
  - destruct (return_store_cases e db p b') as [-> | (_ & ->)]; [exact Href|].
    cbv zeta. destruct (update_book_availability_ok e);
      cbn [books borrow_records]; rewrite ?Hids; intros r Hr;
      apply close_first_loan_books in Hr; destruct Hr as (r0 & Hin & <-); auto.
Qed.

Lemma run_preserves_references (calls : list (Env * Request)) :
  forall db : Database,
    records_reference_books db -> records_reference_books (run calls db).
Proof.
  induction calls as [|[e r] calls IH]; intros db Href; [exact Href|].
  cbn [run]. apply IH. apply serve_preserves_references. exact Href.
Qed.

Lemma init_database_references : records_reference_books init_database.
Proof.
  intros r [].
Qed.

(** A book has no loan yet when it enters the catalog. *)
Lemma no_loans_of_unknown_book (db : Database) (b : Z) :
  records_reference_books db ->
  ~ In b (map id (books db)) ->
  open_loans_of_book db b = 0.
Proof.
  intros Href Hfresh. unfold open_loans_of_book, count_open_loans.
  assert (Hother : forall r, In r (borrow_records db) -> book_id r <> b).
  { intros r Hr <-. apply Hfresh. apply Href. exact Hr. }
  induction (borrow_records db) as [|r l IH]; [reflexivity|].
  cbn [filter]. rewrite (proj2 (Z.eqb_neq _ _) (Hother r (in_eq r l))), andb_false_r.
  apply IH. intros r0 Hr0. apply Hother. apply in_cons. exact Hr0.
Qed.

Lemma find_past_prefix {A : Type} (f : A -> bool) (l l' : list A) :
  find f l = None -> find f (l ++ l') = find f l'.
Proof.
  induction l as [|y l IH]; [reflexivity|]. cbn [find app].
  destruct (f y); [discriminate | exact IH].
Qed.

(** A book that has just been added is accounted for: all its copies are
    available and none is on loan. *)
Lemma added_book_is_accounted (e : Env) (db db1 : Database)
    (t a i : string) (n : Py.value) (m : Message) :
  records_reference_books db ->
  add_book_to_catalog e db t a i n = (true, m, db1) ->
  exists copies,
    n = Py.Int copies /\ accounted (next_book_id db) copies true db1.
Proof.
  intros Href Hadd.
  destruct (add_store_cases e db t a i n) as [Hsame | (copies & Hn & Hpos & Hfst & Hsnd)].
  - exfalso. rewrite add_book_to_catalog_cases in Hadd, Hsame.
    destruct (Py.strip t =? EmptyString)%string; [discriminate Hadd|].
    destruct (200 <? Py.len (Py.strip t)); [discriminate Hadd|].
    destruct (Py.strip a =? EmptyString)%string; [discriminate Hadd|].
    destruct (100 <? Py.len (Py.strip a)); [discriminate Hadd|].
    destruct (negb (Py.len i =? 13)); [discriminate Hadd|].
    destruct (rule_fails db t a i n Copies_validity); [discriminate Hadd|].
    destruct (rule_fails db t a i n Duplicate_isbn); [discriminate Hadd|].
    destruct n as [copies| | |]; try discriminate Hadd.
    destruct (insert_book_ok e); [|discriminate Hadd].
    cbn [snd] in Hsame. apply (f_equal books) in Hsame. cbn [books] in Hsame.
    apply (f_equal (@List.length Book)) in Hsame.
    rewrite length_app in Hsame. cbn [List.length] in Hsame. lia.
  - rewrite Hadd in Hsnd. cbn [snd] in Hsnd. subst db1.
    pose proof (next_book_id_is_fresh db) as Hfresh.
    exists copies. split; [exact Hn|].
    eexists. unfold get_book_by_id, open_loans_of_book. cbn [books borrow_records].
    rewrite find_past_prefix.
    + cbn [find id]. rewrite Z.eqb_refl. split; [reflexivity|].
      cbn [total_copies available_copies]. split; [reflexivity|]. split; [lia|].
      intros _. fold (open_loans_of_book db (next_book_id db)).
      rewrite (no_loans_of_unknown_book db _ Href Hfresh). lia.
    + destruct (find (fun x => id x =? next_book_id db) (books db)) eqn:E;
        [|reflexivity].
      exfalso. apply Hfresh. apply get_book_by_id_known.
      unfold get_book_by_id. rewrite E. discriminate.
Qed.

(** C2. A book added to any store the service can have produced keeps, under
    every sequence of later calls, a number of available copies that is never
    negative; and that number never exceeds the total as long as no borrow in
    the sequence has its record written and its decrement lost. *)
Theorem available_copies_stay_within_bounds
    (history : list (Env * Request)) (e : Env) (t a i : string) (n : Py.value)
    (m : Message) (db1 : Database) (calls : list (Env * Request)) :
  add_book_to_catalog e (run history init_database) t a i n = (true, m, db1) ->
  let b := next_book_id (run history init_database) in
  exists bk : Book,
    get_book_by_id (run calls db1) b = Some bk
    /\ n = Py.Int (total_copies bk)
    /\ 0 <= available_copies bk
    /\ (forallb decrement_follows_record calls = true ->
        available_copies bk <= total_copies bk).
Proof.
  intros Hadd b.
  assert (Href : records_reference_books (run history init_database))
    by (apply run_preserves_references, init_database_references).
  destruct (added_book_is_accounted e _ db1 t a i n m Href Hadd)
    as (copies & Hn & Hacc). fold b in Hacc.
  assert (Hlow : accounted b copies false db1).
  { destruct Hacc as (bk & H1 & H2 & H3 & _). exists bk.
    repeat split; try assumption. discriminate. }
  destruct (run_preserves_accounting b copies false calls db1 Hlow)
    as (bk & Hget & Htot & Hnonneg & _); [discriminate|].
  exists bk. split; [exact Hget|]. split; [rewrite Htot; exact Hn|].
  split; [exact Hnonneg|]. intros Hdec.
  destruct (run_preserves_accounting b copies true calls db1 Hacc (fun _ => Hdec))
    as (bk' & Hget' & Htot' & _ & Hup).
  rewrite Hget in Hget'. injection Hget' as <-.
  specialize (Hup eq_refl).
  pose proof (count_open_loans_nonneg b (borrow_records (run calls db1))) as H0.
  unfold open_loans_of_book in Hup. lia.
Qed.

Lemma available_copies_stay_within_bounds_witness :
  let calls := [(fine_at morning, Borrow "123456" 1);
                (fine_at (plus_days morning 3), Return "123456" 1);
                (fine_at (plus_days morning 3), Return "123456" 1)] in
  exists bk : Book,
    get_book_by_id (run calls zzz_catalog) 1 = Some bk
    /\ 0 <= available_copies bk <= total_copies bk.
Proof.
  intros calls.
  destruct (available_copies_stay_within_bounds
              [] (fine_at morning) "Zzz" "A" zzz_isbn (Py.Int 1)
              (Book_added "Zzz") zzz_catalog calls eq_refl)
    as (bk & Hget & _ & Hlow & Hup).
  exists bk. split; [exact Hget|]. split; [exact Hlow | exact (Hup eq_refl)].
Defined.

(** C2 as first stated fails: when the decrement of a borrow is lost after its
    record was written, the return that follows brings the available copies
    of a one-copy book to two. *)
Lemma copies_exceed_total_after_lost_decrement :
  let lost := mkEnv morning true true true false true in
  let calls := [(lost, Borrow "123456" 1);
                (fine_at (plus_days morning 3), Return "123456" 1)] in
  add_book_to_catalog (fine_at morning) init_database "Zzz" "A" zzz_isbn (Py.Int 1)
  = (true, Book_added "Zzz", zzz_catalog)
  /\ forallb (on_book 1) calls = true
  /\ option_map (fun bk => (available_copies bk, total_copies bk))
                (get_book_by_id (run calls zzz_catalog) 1) = Some (2, 1)
  /\ copies_within_bounds (run calls zzz_catalog) 1 = false.
Proof.
  repeat split; reflexivity.
Qed.

(** ** The patron status report *)

(** Rounding does not depend on how the fraction is written. *)
Lemma round_half_even_compat (p q : Q) :
  p == q -> Py.round_half_even p = Py.round_half_even q.
Proof.
  destruct p as [n1 d1], q as [n2 d2]. unfold Qeq, Py.round_half_even.
  cbn [Qnum Qden]. intros H.
  pose proof (Z.div_mod n1 (Z.pos d1) ltac:(discriminate)) as E1.
  pose proof (Z.div_mod n2 (Z.pos d2) ltac:(discriminate)) as E2.
  pose proof (Z.mod_pos_bound n1 (Z.pos d1) ltac:(reflexivity)) as B1.
  pose proof (Z.mod_pos_bound n2 (Z.pos d2) ltac:(reflexivity)) as B2.
  pose proof (Pos2Z.is_pos d1) as P1. pose proof (Pos2Z.is_pos d2) as P2.
  set (f1 := n1 / Z.pos d1) in *. set (m1 := n1 mod Z.pos d1) in *.
  set (f2 := n2 / Z.pos d2) in *. set (m2 := n2 mod Z.pos d2) in *.
  assert (U : f1 = f2 /\ m1 * Z.pos d2 = m2 * Z.pos d1).
  { apply (Z.div_mod_unique (Z.pos d1 * Z.pos d2)).
    - left. nia.
    - left. nia.
    - nia. }
  destruct U as [<- Hm].
  destruct (Z.ltb_spec (2 * m1) (Z.pos d1)), (Z.ltb_spec (2 * m2) (Z.pos d2));
    try reflexivity; try (exfalso; nia);
  destruct (Z.ltb_spec (Z.pos d1) (2 * m1)), (Z.ltb_spec (Z.pos d2) (2 * m2));
    try reflexivity; exfalso; nia.
Qed.

#[global] Instance round2_compat : Proper (Qeq ==> Qeq) Py.round2.
Proof.
  intros p q H. unfold Py.round2.
  rewrite (round_half_even_compat (p * 100) (q * 100)); [reflexivity|].
  rewrite H. reflexivity.
Qed.

(** The loop that accumulates the fees of the overdue loans, as a sum. *)
Lemma fees_loop_is_sum (fee_of : BorrowedBook -> Q) (l : list BorrowedBook) :
  forall acc : Q,
    fold_left (fun total book =>
                 if is_overdue book then (total + fee_of book)%Q else total)
              l acc
    == acc + sum_fees (map fee_of (filter is_overdue l)).
Proof.
  induction l as [|x l IH]; intros acc; cbn [fold_left filter].
  - cbn [map sum_fees fold_right]. ring.
  - rewrite IH. destruct (is_overdue x); [|reflexivity].
    cbn [map sum_fees fold_right]. fold (sum_fees (map fee_of (filter is_overdue l))).
    ring.
Qed.

(** Every fee the calculator returns is a whole number of half dollars. *)
Lemma calculator_fee_in_halves (e : Env) (db : Database) (patron : string) (book : Z) :
  exists h : Z, fee_amount (calculate_late_fee_for_book e db patron book) == h # 2.
Proof.
  destruct (invalid_patron_id patron) eqn:Hp;
    [exists 0; unfold calculate_late_fee_for_book; rewrite Hp; reflexivity|].
  destruct (get_book_by_id db book) as [bk|] eqn:Hb;
    [|exists 0; unfold calculate_late_fee_for_book; rewrite Hp, Hb; reflexivity].
  destruct (find (fun borrowed => loan_book_id borrowed =? book)
                 (get_patron_borrowed_books (now e) db patron)) as [loan|] eqn:Hl;
    [|exists 0; unfold calculate_late_fee_for_book; rewrite Hp, Hb, Hl; reflexivity].
  destruct (calculate_late_fee_found e db patron book bk loan Hp Hb Hl) as [_ H].
  eexists. exact H.
Qed.

Lemma sum_of_halves (l : list Q) :
  (forall q, In q l -> exists h : Z, q == h # 2) ->
  exists h : Z, sum_fees l == h # 2.
Proof.
  induction l as [|q l IH]; intros H; [exists 0; reflexivity|].
  destruct (H q (in_eq q l)) as [h1 H1].
  destruct IH as [h2 H2]; [intros q' Hq'; apply H; apply in_cons; exact Hq'|].
  exists (h1 + h2). cbn [sum_fees fold_right]. fold (sum_fees l).
  rewrite H1, H2. unfold Qeq. cbn [Qnum Qden Qplus]. lia.
Qed.









(** ** Searching the catalog *)

Section Like.

Import Sqlite.

Lemma like_percent (p s : string) :
  like (String "%" p) s
  = like p s
    || match s with
       | EmptyString => false
       | String _ s' => like (String "%" p) s'
       end.
Proof.
  destruct s; reflexivity.
Qed.


Lemma like_literal (c : ascii) (p s : string) :
  (c =? "%")%char = false ->
  (c =? "_")%char = false ->
  like (String c p) s
  = match s with
    | EmptyString => false
    | String d s' => eq_nocase c d && like p s'
    end.
Proof.
  intros H1 H2. cbn [like]. rewrite H1, H2. reflexivity.
Qed.





Lemma in_insert_sorted {A : Type} (le : A -> A -> bool) (x y : A) (l : list A) :
  In y (insert_sorted le x l) <-> y = x \/ In y l.
Proof.
  induction l as [|z l IH]; cbn [insert_sorted].
  - cbn [In]. intuition.
  - destruct (le x z); cbn [In]; [intuition|]. rewrite IH. intuition.
Qed.

(** Ordering the rows neither drops nor invents one. *)
Lemma in_order_by {A : Type} (le : A -> A -> bool) (y : A) (l : list A) :
  In y (order_by le l) <-> In y l.
Proof.
  unfold order_by. induction l as [|x l IH]; [reflexivity|].
  cbn [fold_right In]. rewrite in_insert_sorted, IH. intuition.
Qed.

End Like.



Lemma rows_as_dictionaries (l : list Book) :
  map (fun book =>
         mkBook (id book) (title book) (author book) (isbn book)
                (total_copies book) (available_copies book)) l = l.
Proof.
  rewrite <- (map_id l) at 2. apply map_ext. intros []; reflexivity.
Qed.

(** What a title or author search returns when its query runs: the books
    whose column matches [%term%], term trimmed. *)
Lemma search_by_column (e : Env) (db : Database) (term kind : string) (bk : Book) :
  query_ok e = true ->
  kind = "title" \/ kind = "author" ->
  (In bk (search_books_in_catalog e db term kind)
   <-> Py.strip term <> EmptyString
       /\ In bk (books db)
       /\ Sqlite.like ("%" ++ Py.strip term ++ "%") (search_column kind bk) = true).
Proof.
  intros Hq Hkind. unfold search_books_in_catalog.
  rewrite blank_after_strip, Hq, rows_as_dictionaries.
  destruct (String.eqb_spec (Py.strip term) EmptyString) as [E | E].
  - split; [contradiction | intros [H _]; contradiction].
  - destruct Hkind as [-> | ->];
      change (negb (existsb _ _)) with false; cbv iota; cbn [negb];
      change ((_ =? "isbn")%string) with false; cbv iota;
      unfold order_by_title; rewrite in_order_by, filter_In; tauto.
Qed.

(** What an isbn search returns when its query runs: the books whose isbn is
    the trimmed term. *)
Lemma search_by_isbn (e : Env) (db : Database) (term : string) (bk : Book) :
  query_ok e = true ->
  (In bk (search_books_in_catalog e db term "isbn")
   <-> Py.strip term <> EmptyString /\ In bk (books db) /\ isbn bk = Py.strip term).
Proof.
  intros Hq. unfold search_books_in_catalog.
  rewrite blank_after_strip, Hq, rows_as_dictionaries.
  destruct (String.eqb_spec (Py.strip term) EmptyString) as [E | E].
  - split; [contradiction | intros [H _]; contradiction].
  - change (negb (existsb _ _)) with false; cbv iota; cbn [negb].
    change (("isbn" =? "isbn")%string) with true; cbv iota.
    unfold order_by_title. rewrite in_order_by, filter_In, String.eqb_eq. tauto.
Qed.

(** A search whose query fails returns nothing. *)
Lemma search_fails_open (e : Env) (db : Database) (term kind : string) :
  query_ok e = false -> search_books_in_catalog e db term kind = [].
Proof.
  intros Hq. unfold search_books_in_catalog. rewrite Hq.
  destruct (_ || _); [reflexivity|]. destruct (negb (existsb _ _)); reflexivity.
Qed.




(** * Further properties of the service *)

(** ** The fee calculator, whatever its inputs *)

(** The calculator either answers with no fee, no days and one of its four
    refusals, or found an overdue loan and charges its tiered fee. *)
Lemma calculate_late_fee_cases (e : Env) (db : Database) (patron : string) (book : Z) :
  let r := calculate_late_fee_for_book e db patron book in
  (fee_amount r = 0%Q /\ days_overdue r = 0 /\ status r <> "Late fee calculated")
  \/ (exists (bk : Book) (loan : BorrowedBook),
        invalid_patron_id patron = false
        /\ get_book_by_id db book = Some bk
        /\ find (fun borrowed => loan_book_id borrowed =? book)
                (get_patron_borrowed_books (now e) db patron) = Some loan
        /\ days_overdue r = date_of (now e) - date_of (loan_due_date loan)
        /\ 0 < days_overdue r
        /\ fee_amount r == half_dollars (days_overdue r) # 2
        /\ status r = "Late fee calculated").
Proof.
  cbv zeta.
  destruct (invalid_patron_id patron) eqn:Hp;
    [left; unfold calculate_late_fee_for_book; rewrite Hp;
     repeat split; discriminate|].
  destruct (get_book_by_id db book) as [bk|] eqn:Hb;
    [|left; unfold calculate_late_fee_for_book; rewrite Hp, Hb;
      repeat split; discriminate].
  destruct (find (fun borrowed => loan_book_id borrowed =? book)
                 (get_patron_borrowed_books (now e) db patron)) as [loan|] eqn:Hl;
    [|left; unfold calculate_late_fee_for_book; rewrite Hp, Hb, Hl;
      repeat split; discriminate].
  destruct (calculate_late_fee_found e db patron book bk loan Hp Hb Hl) as [Hd Hf].
  unfold spec_days_overdue in Hd, Hf.
  destruct (Z.le_gt_cases (date_of (now e)) (date_of (loan_due_date loan))) as [Hle | Hgt].
  - left. unfold calculate_late_fee_for_book in *. rewrite Hp, Hb, Hl in *.
    apply Z.leb_le in Hle. rewrite Hle. repeat split; discriminate.
  - right. exists bk, loan. split; [reflexivity|]. split; [reflexivity|].
    split; [reflexivity|].
    rewrite Z.max_r in Hd, Hf by lia. rewrite <- Hd in Hf.
    split; [exact Hd|]. split; [lia|]. split; [exact Hf|].
    unfold calculate_late_fee_for_book. rewrite Hp, Hb, Hl.
    apply Z.leb_gt in Hgt. rewrite Hgt. reflexivity.
Qed.

(** X1. Whatever it is asked, the calculator charges between 0.00 and 15.00;
    it charges something exactly when it counts at least one day overdue, which
    is exactly when its status is the one of a calculated fee, and then at
    least 0.50; and it charges the full 15.00 exactly from the 19th day
    overdue on. *)
Theorem late_fee_bounds_and_thresholds
    (e : Env) (db : Database) (patron : string) (book : Z) :
  let r := calculate_late_fee_for_book e db patron book in
  (0 <= fee_amount r <= 15)%Q
  /\ 0 <= days_overdue r
  /\ ((0 < fee_amount r)%Q <-> 0 < days_overdue r)
  /\ (status r = "Late fee calculated" <-> 0 < days_overdue r)
  /\ (0 < days_overdue r -> (1 # 2 <= fee_amount r)%Q)
  /\ (fee_amount r == 15 <-> 19 <= days_overdue r).
Proof.
  destruct (calculate_late_fee_cases e db patron book)
    as [(Hf & Hd & Hs) | (bk & loan & _ & _ & _ & _ & Hpos & Hf & Hs)]; cbv zeta in *.
  - rewrite Hf, Hd. repeat split; try discriminate; try lia;
      intros H; try contradiction; try discriminate H; try lia.
  - set (d := days_overdue (calculate_late_fee_for_book e db patron book)) in *.
    assert (Hh : half_dollars d = Z.min 30 (Z.min d 7 + 2 * Z.max 0 (d - 7)))
      by reflexivity.
    rewrite Hf. repeat split; try (intros _; assumption); try lia;
      try (intros; q_lia); try q_lia.
Qed.

Lemma borrowed_books_at_another_time (c1 c2 : datetime) (db : Database) (p : string) :
  get_patron_borrowed_books c2 db p
  = map (reflag c2) (get_patron_borrowed_books c1 db p).
Proof.
  unfold get_patron_borrowed_books.
  induction (borrow_records db) as [|r l IH]; [reflexivity|].
  cbn [flat_map]. rewrite map_app, IH. f_equal.
  destruct (open_loan_of p r); [|reflexivity].
  destruct (get_book_by_id db (book_id r)); reflexivity.
Qed.

Lemma find_loan_at_another_time (c1 c2 : datetime) (db : Database) (p : string) (b : Z) :
  find (fun borrowed => loan_book_id borrowed =? b) (get_patron_borrowed_books c2 db p)
  = option_map (reflag c2)
      (find (fun borrowed => loan_book_id borrowed =? b)
            (get_patron_borrowed_books c1 db p)).
Proof.
  rewrite (borrowed_books_at_another_time c1 c2).
  induction (get_patron_borrowed_books c1 db p) as [|x l IH]; [reflexivity|].
  cbn [map find reflag loan_book_id].
  destruct (loan_book_id x =? b); [reflexivity | exact IH].
Qed.

Lemma date_of_monotone (t1 t2 : datetime) : t1 <= t2 -> date_of t1 <= date_of t2.
Proof.
  intros H. unfold date_of. apply Z.div_le_mono; [reflexivity | exact H].
Qed.

Lemma half_dollars_monotone (d1 d2 : Z) :
  d1 <= d2 -> half_dollars d1 <= half_dollars d2.
Proof.
  unfold half_dollars. lia.
Qed.

(** X2. As time passes the calculator's answer for a patron and a book only
    grows: asked again later about the same store, it counts at least as many
    days overdue and charges at least as much. *)
Theorem late_fee_never_decreases
    (e1 e2 : Env) (db : Database) (patron : string) (book : Z) :
  now e1 <= now e2 ->
  let r1 := calculate_late_fee_for_book e1 db patron book in
  let r2 := calculate_late_fee_for_book e2 db patron book in
  days_overdue r1 <= days_overdue r2 /\ (fee_amount r1 <= fee_amount r2)%Q.
Proof.
  intros Hclock r1 r2.
  assert (Hnonneg : 0 <= days_overdue r2 /\ (0 <= fee_amount r2)%Q).
  { destruct (calculate_late_fee_cases e2 db patron book)
      as [(Hf & Hd & _) | (bk & loan & _ & _ & _ & _ & Hpos & Hf & _)];
      cbv zeta in *; fold r2 in Hf, Hpos || fold r2 in Hf, Hd.
    - rewrite Hf, Hd. split; [lia | discriminate].
    - split; [lia|]. rewrite Hf. unfold half_dollars. q_lia. }
  destruct (calculate_late_fee_cases e1 db patron book)
    as [(Hf & Hd & _) | (bk & loan & Hp & Hb & Hl & Hd & Hpos & Hf & _)];
    cbv zeta in *.
  - fold r1 in Hf, Hd. rewrite Hf, Hd. exact Hnonneg.
  - fold r1 in Hd, Hpos, Hf.
    assert (Hl2 : find (fun borrowed => loan_book_id borrowed =? book)
                       (get_patron_borrowed_books (now e2) db patron)
                  = Some (reflag (now e2) loan)).
    { rewrite (find_loan_at_another_time (now e1) (now e2)), Hl. reflexivity. }
    destruct (calculate_late_fee_found e2 db patron book bk _ Hp Hb Hl2) as [Hd2 Hf2].
    fold r2 in Hd2, Hf2. cbn [reflag loan_due_date] in Hd2, Hf2.
    unfold spec_days_overdue in Hd2, Hf2.
    pose proof (date_of_monotone _ _ Hclock) as Hdate.
    assert (Hdays : days_overdue r1 <= days_overdue r2) by lia.
    split; [exact Hdays|]. rewrite Hf, Hf2, <- Hd2.
    pose proof (half_dollars_monotone _ _ Hdays). q_lia.
Qed.

Lemma late_fee_never_decreases_witness :
  let r1 := calculate_late_fee_for_book (fine_at (plus_days morning 20))
                                        zzz_on_loan "123456" 1 in
  let r2 := calculate_late_fee_for_book (fine_at (plus_days morning 24))
                                        zzz_on_loan "123456" 1 in
  days_overdue r1 <= days_overdue r2 /\ (fee_amount r1 <= fee_amount r2)%Q.
Proof.
  apply (late_fee_never_decreases (fine_at (plus_days morning 20))
                                  (fine_at (plus_days morning 24))
                                  zzz_on_loan "123456" 1).
  vm_compute. discriminate.
Defined.

(** X3. Up to 30 days late, the fee a return reports is never more than what
    the calculator gives for the same loan at the same moment; for the first
    seven days the two agree, and at 30 days they meet again at 15.00. *)
Theorem return_fee_within_calculator_fee
    (e : Env) (db db' : Database) (patron : string) (book : Z)
    (days : Z) (fee : Q) :
  return_book_by_patron e db patron book = (true, Returned_late days fee, db') ->
  let r := calculate_late_fee_for_book e db patron book in
  days_overdue r = days
  /\ (days <= 30 -> (fee <= fee_amount r)%Q)
  /\ (days <= 7 \/ days = 30 -> fee == fee_amount r)
  /\ (7 < days < 30 -> (fee < fee_amount r)%Q).
Proof.
  intros H r.
  destruct (return_success_inversion e db db' patron book _ H)
    as (bk & loan & Hp & Hb & Hl & Hm & _).
  destruct (date_of (loan_due_date loan) <? date_of (now e)) eqn:E;
    [|discriminate Hm].
  apply Z.ltb_lt in E. injection Hm as -> ->.
  destruct (calculate_late_fee_found e db patron book bk loan Hp Hb Hl) as [Hd Hf].
  fold r in Hd, Hf. unfold spec_days_overdue in Hd, Hf.
  rewrite Z.max_r in Hd, Hf by lia.
  set (d := date_of (now e) - date_of (loan_due_date loan)) in *.
  split; [exact Hd|].
  repeat split; intros Hdays; rewrite Hf; unfold half_dollars; q_lia.
Qed.

Lemma return_fee_within_calculator_fee_witness :
  let e := fine_at (plus_days morning 20) in
  let r := calculate_late_fee_for_book e zzz_on_loan "123456" 1 in
  days_overdue r = 6 /\ inject_Z 6 * (1 # 2) == fee_amount r.
Proof.
  intros e r.
  pose proof (return_fee_within_calculator_fee
                e zzz_on_loan (snd (return_book_by_patron e zzz_on_loan "123456" 1))
                "123456" 1 6 (inject_Z 6 * (1 # 2)) eq_refl) as H.
  cbv zeta in H. destruct H as (Hd & _ & Heq & _).
  split; [exact Hd | apply Heq; left; lia].
Defined.

(** ** The payment gateway *)

Lemma string_append_assoc (s t u : string) : (s ++ t) ++ u = s ++ t ++ u.
Proof.
  induction s as [|c s IH]; [reflexivity|]. cbn [append]. rewrite IH. reflexivity.
Qed.

Lemma format_2f_compat (p q : Q) : p == q -> Py.format_2f p = Py.format_2f q.
Proof.
  intros H. unfold Py.format_2f.
  rewrite (round_half_even_compat (p * 100) (q * 100)); [reflexivity|].
  rewrite H. reflexivity.
Qed.

(** X4. The gateway processes a payment exactly when the amount is given and
    not at most zero and the patron id passes the library's own check; every
    other call raises, an unacceptable amount being reported before the patron
    id is looked at; a dictionary it returns always says success.  A refund is
    accepted for exactly the same arguments. *)
Theorem gateway_accepts_positive_amounts_of_valid_patrons
    (patron : string) (amount : option pyfloat) :
  ((exists m, PaymentGateway.process_payment patron amount = Returns true m)
   <-> (exists a, amount = Some a /\ float_le_zero a = false)
       /\ invalid_patron_id patron = false)
  /\ (forall s m, PaymentGateway.process_payment patron amount = Returns s m ->
                  s = true)
  /\ ((forall a, amount = Some a -> float_le_zero a = true) ->
      PaymentGateway.process_payment patron amount
      = Raises_ValueError "Invalid payment amount.")
  /\ ((exists m, PaymentGateway.refund_payment patron amount = Returns true m)
      <-> (exists m, PaymentGateway.process_payment patron amount = Returns true m)).
Proof.
  unfold PaymentGateway.process_payment, PaymentGateway.refund_payment.
  fold (invalid_patron_id patron).
  destruct amount as [a|];
    [destruct (float_le_zero a) eqn:Ea;
     [|destruct (invalid_patron_id patron) eqn:Ep]|];
    repeat match goal with
           | |- _ /\ _ => split
           | |- _ <-> _ => split
           | |- _ -> _ => intro
           | |- forall _, _ => intro
           | H : exists _, _ |- _ => destruct H
           | H : _ /\ _ |- _ => destruct H
           | H : Some _ = Some _ |- _ => injection H as H; subst
           | H : Returns _ _ = Returns _ _ |- _ => injection H as ? ?; subst
           | H : forall x, Some ?y = Some x -> _ |- _ => specialize (H y eq_refl)
           end;
    try discriminate; try congruence; try reflexivity;
    try (eexists; reflexivity);
    try (eexists; split; [reflexivity | assumption]).
Qed.

(** X5. Every fee the calculator charges can be paid: for a fee it calculated
    the gateway accepts the payment and names the amount with two decimals,
    whole dollars and then 00 or 50 cents; when the calculator charges nothing
    the gateway refuses the amount. *)
Theorem calculated_fee_is_payable
    (e : Env) (db : Database) (patron : string) (book : Z) :
  let r := calculate_late_fee_for_book e db patron book in
  let h := half_dollars (days_overdue r) in
  (status r = "Late fee calculated" ->
   PaymentGateway.process_payment patron (Some (Finite (fee_amount r)))
   = Returns true ("Processed $" ++ Py.str (h / 2) ++ "."
                     ++ (if Z.even h then "00" else "50")
                     ++ " for patron " ++ patron ++ "."))
  /\ (status r <> "Late fee calculated" ->
      PaymentGateway.process_payment patron (Some (Finite (fee_amount r)))
      = Raises_ValueError "Invalid payment amount.").
Proof.
  destruct (calculate_late_fee_cases e db patron book)
    as [(Hf & Hd & Hs) | (bk & loan & Hp & _ & _ & _ & Hpos & Hf & Hs)];
    cbv zeta in *.
  - split; [intros H; contradiction|]. intros _.
    unfold PaymentGateway.process_payment. rewrite Hf. reflexivity.
  - split; [|intros H; contradiction]. intros _.
    set (d := days_overdue (calculate_late_fee_for_book e db patron book)) in *.
    assert (Hh : 1 <= half_dollars d) by (unfold half_dollars; lia).
    unfold PaymentGateway.process_payment, float_le_zero.
    fold (invalid_patron_id patron). rewrite Hp.
    destruct (Qle_bool _ 0) eqn:Ele.
    + exfalso. apply Qle_bool_iff in Ele. rewrite Hf in Ele. revert Ele. q_lia.
    + cbn [format_float_2f].
      rewrite (format_2f_compat _ (inject_Z (half_dollars d) * (1 # 2)))
        by (rewrite Hf; unfold Qeq; cbn [Qnum Qden Qmult inject_Z]; lia).
      rewrite format_half_dollars by lia.
      rewrite !string_append_assoc. reflexivity.
Qed.

Lemma calculated_fee_is_payable_witness :
  PaymentGateway.process_payment "123456"
    (Some (Finite (fee_amount
                     (calculate_late_fee_for_book (fine_at (plus_days morning 24))
                                                  zzz_on_loan "123456" 1))))
  = Returns true "Processed $6.50 for patron 123456.".
Proof.
  exact (proj1 (calculated_fee_is_payable (fine_at (plus_days morning 24))
                                          zzz_on_loan "123456" 1) eq_refl).
Defined.

Lemma gateway_accepts_positive_amounts_of_valid_patrons_witness :
  (exists m, PaymentGateway.refund_payment "123456" (Some (Finite 6.50))
             = Returns true m)
  /\ PaymentGateway.process_payment "12345A" (Some (Finite 0))
     = Raises_ValueError "Invalid payment amount.".
Proof.
  split.
  - apply (proj2 (proj2 (proj2 (gateway_accepts_positive_amounts_of_valid_patrons
                                  "123456" (Some (Finite 6.50)))))).
    exists "Processed $6.50 for patron 123456.". reflexivity.
  - apply (proj1 (proj2 (proj2 (gateway_accepts_positive_amounts_of_valid_patrons
                                  "12345A" (Some (Finite 0)))))).
    intros a H. injection H as <-. reflexivity.
Defined.

(** ** Borrowing and returning, one after the other *)

(** A borrow that succeeded passed every check and wrote both the record and
    the decrement. *)
Lemma borrow_success_inversion (e : Env) (db db1 : Database)
    (patron : string) (book : Z) (m : Message) :
  borrow_book_by_patron e db patron book = (true, m, db1) ->
  exists bk : Book,
    invalid_patron_id patron = false
    /\ get_book_by_id db book = Some bk
    /\ 0 < available_copies bk
    /\ get_patron_borrow_count db patron <= 5
    /\ m = Borrowed (title bk) (plus_days (now e) 14)
    /\ db1 = mkDatabase
               (map (shift_available book (-1)) (books db))
               (borrow_records db
                  ++ [mkBorrowRecord patron book (now e) (plus_days (now e) 14) None]).
Proof.
  unfold borrow_book_by_patron.
  destruct (invalid_patron_id patron); [discriminate|].
  destruct (get_book_by_id db book) as [bk|]; [|discriminate].
  destruct (available_copies bk <=? 0) eqn:Ea; [discriminate|].
  destruct (5 <? get_patron_borrow_count db patron) eqn:Ec; [discriminate|].
  destruct (insert_borrow_record_ok e); [|discriminate].
  destruct (update_book_availability_ok e); [|discriminate].
  cbn. intros H. injection H as <- <-. exists bk.
  apply Z.leb_gt in Ea. apply Z.ltb_ge in Ec. repeat split; assumption.
Qed.

Lemma shift_available_back (b : Z) (l : list Book) :
  map (shift_available b 1) (map (shift_available b (-1)) l) = l.
Proof.
  rewrite map_map. rewrite <- (map_id l) at 2. apply map_ext.
  intros [i t a s n k]. unfold shift_available. cbn [id].
  destruct (i =? b) eqn:E; cbn [id]; rewrite ?E; [|reflexivity].
  cbn [title author isbn total_copies available_copies]. f_equal. lia.
Qed.

(** An open loan of a catalogued book shows in the patron's list. *)
Lemma open_record_is_listed (clock : datetime) (db : Database) (p : string) (b : Z) :
  get_book_by_id db b <> None ->
  (exists r, In r (borrow_records db) /\ open_loan_of p r = true /\ book_id r = b) ->
  find (fun borrowed => loan_book_id borrowed =? b)
       (get_patron_borrowed_books clock db p) <> None.
Proof.
  intros Hb (r & Hin & Ho & Hr) Hnone. subst b.
  destruct (get_book_by_id db (book_id r)) as [bk|] eqn:Eb; [|contradiction].
  pose proof (find_none _ _ Hnone
                (mkBorrowedBook (book_id r) (title bk) (author bk)
                                (borrow_date r) (due_date r) (due_date r <? clock)))
    as H.
  cbn [loan_book_id] in H. rewrite Z.eqb_refl in H.
  assert (Hfalse : true = false); [|discriminate Hfalse].
  apply H. unfold get_patron_borrowed_books. apply in_flat_map. exists r.
  split; [exact Hin|]. rewrite Ho, Eb. left. reflexivity.
Qed.

(** ... and a patron without an open loan of a book has none in the list. *)
Lemma no_open_record_not_listed (clock : datetime) (db : Database) (p : string) (b : Z) :
  open_loans_of_pair db p b = 0 ->
  find (fun borrowed => loan_book_id borrowed =? b)
       (get_patron_borrowed_books clock db p) = None.
Proof.
  intros Hzero.
  destruct (find (fun borrowed => loan_book_id borrowed =? b)
                 (get_patron_borrowed_books clock db p)) as [loan|] eqn:E;
    [|reflexivity].
  exfalso. destruct (found_loan_is_open_record db b clock p loan E)
    as (r & Hin & Ho & Hr).
  unfold open_loans_of_pair in Hzero.
  assert (Hf : In r (filter (fun r => open_loan_of p r && (book_id r =? b))
                            (borrow_records db))).
  { apply filter_In. split; [exact Hin|]. rewrite Ho, Hr, Z.eqb_refl. reflexivity. }
  destruct (filter _ (borrow_records db)); [contradiction | cbn in Hzero; lia].
Qed.

Lemma open_pair_exists (db : Database) (p : string) (b : Z) :
  0 < open_loans_of_pair db p b ->
  exists r, In r (borrow_records db) /\ open_loan_of p r = true /\ book_id r = b.
Proof.
  unfold open_loans_of_pair. intros H.
  destruct (filter (fun r => open_loan_of p r && (book_id r =? b)) (borrow_records db))
    as [|r l] eqn:E; [cbn in H; lia|].
  assert (Hin : In r (filter (fun r => open_loan_of p r && (book_id r =? b))
                             (borrow_records db))) by (rewrite E; apply in_eq).
  apply filter_In in Hin. destruct Hin as [Hin Hc].
  apply andb_true_iff in Hc. destruct Hc as [Ho Hb]. apply Z.eqb_eq in Hb.
  exists r. auto.
Qed.

(** Closing the first open loan of a pair takes one loan from any count that
    counts it and leaves every other count alone. *)
Lemma count_after_close (f : BorrowRecord -> bool) (p : string) (b : Z)
    (returned : datetime) (l : list BorrowRecord) :
  (forall r, is_open r = false -> f r = false) ->
  (forall r r', patron_id r = patron_id r' -> book_id r = book_id r' ->
                is_open r = is_open r' -> f r = f r') ->
  (exists r, In r l /\ open_loan_of p r = true /\ book_id r = b) ->
  exists first,
    In first l /\ open_loan_of p first = true /\ book_id first = b
    /\ Z.of_nat (List.length (filter f (close_first_loan p b returned l)))
       = Z.of_nat (List.length (filter f l)) - (if f first then 1 else 0).
Proof.
  intros Hclosed Hcompat.
  induction l as [|x l IH]; intros (r & Hin & Hopen & Hbook); [contradiction|].
  cbn [close_first_loan].
  destruct (open_loan_of p x && (book_id x =? b)) eqn:E.
  - apply andb_true_iff in E. destruct E as [Ho Hb]. apply Z.eqb_eq in Hb.
    exists x. split; [apply in_eq|]. split; [exact Ho|]. split; [exact Hb|].
    cbn [filter]. rewrite (Hclosed (mkBorrowRecord _ _ _ _ (Some returned)))
      by reflexivity.
    destruct (f x); cbn [List.length]; lia.
  - assert (Hrest : exists r0, In r0 l /\ open_loan_of p r0 = true /\ book_id r0 = b).
    { destruct Hin as [-> | Hin]; [|exists r; auto].
      rewrite Hopen, Hbook, Z.eqb_refl in E. discriminate E. }
    destruct (IH Hrest) as (first & Hf1 & Hf2 & Hf3 & Hcount).
    exists first. split; [apply in_cons; exact Hf1|]. split; [exact Hf2|].
    split; [exact Hf3|]. cbn [filter].
    destruct (f x); cbn [List.length]; lia.
Qed.

(** X6. A return undoes a borrow: after a successful borrow, a return by the
    same patron of the same book, with its two writes succeeding, succeeds
    and leaves the catalog exactly as it was before the borrow, and every
    patron with as many open loans as before. *)
Theorem return_after_borrow_restores_the_catalog
    (e1 e2 : Env) (db db1 : Database) (patron : string) (book : Z) (m1 : Message) :
  borrow_book_by_patron e1 db patron book = (true, m1, db1) ->
  update_borrow_record_return_date_ok e2 = true ->
  update_book_availability_ok e2 = true ->
  exists (m2 : Message) (db2 : Database),
    return_book_by_patron e2 db1 patron book = (true, m2, db2)
    /\ books db2 = books db
    /\ (forall q, get_patron_borrow_count db2 q = get_patron_borrow_count db q).
Proof.
  intros Hborrow Hret Hav.
  destruct (borrow_success_inversion e1 db db1 patron book m1 Hborrow)
    as (bk & Hp & Hb & _ & _ & _ & Hdb1).
  set (new := mkBorrowRecord patron book (now e1) (plus_days (now e1) 14) None) in *.
  assert (Hnew : open_loan_of patron new = true)
    by (unfold open_loan_of; cbn; apply String.eqb_refl).
  assert (Hb1 : get_book_by_id db1 book = Some (shift_available book (-1) bk)).
  { rewrite Hdb1. unfold get_book_by_id. cbn [books].
    rewrite get_book_after_shift. fold (get_book_by_id db book). rewrite Hb.
    reflexivity. }
  assert (Hopen : exists r, In r (borrow_records db1)
                            /\ open_loan_of patron r = true /\ book_id r = book).
  { exists new. rewrite Hdb1. cbn [borrow_records].
    split; [apply in_or_app; right; apply in_eq|]. split; [exact Hnew | reflexivity]. }
  assert (Hfind : find (fun borrowed => loan_book_id borrowed =? book)
                       (get_patron_borrowed_books (now e2) db1 patron) <> None).
  { apply open_record_is_listed; [rewrite Hb1; discriminate | exact Hopen]. }
  unfold return_book_by_patron. rewrite Hp, Hb1.
  destruct (find (fun borrowed => loan_book_id borrowed =? book)
                 (get_patron_borrowed_books (now e2) db1 patron)) as [loan|];
    [|contradiction].
  rewrite Hret, Hav.
  cbn [update_borrow_record_return_date update_book_availability negb fst snd].
  cbv zeta.
  assert (Hbooks : map (shift_available book 1) (books db1) = books db)
    by (rewrite Hdb1; cbn [books]; apply shift_available_back).
  assert (Hcount : forall q,
             get_patron_borrow_count
               (mkDatabase (map (shift_available book 1) (books db1))
                           (close_first_loan patron book (now e2) (borrow_records db1))) q
             = get_patron_borrow_count db q).
  { intros q. unfold get_patron_borrow_count. cbn [borrow_records].
    destruct (count_after_close (open_loan_of q) patron book (now e2)
                                (borrow_records db1))
      as (first & _ & Hf & _ & Hc); [| |exact Hopen|].
    - intros r Hr. unfold open_loan_of. rewrite Hr. reflexivity.
    - intros r r' Hpat _ Hop. unfold open_loan_of. rewrite Hpat, Hop. reflexivity.
    - rewrite Hc. rewrite Hdb1. cbn [borrow_records].
      rewrite filter_app, length_app. cbn [filter].
      assert (Hq : open_loan_of q first = open_loan_of q new).
      { unfold open_loan_of in *. apply andb_true_iff in Hf. destruct Hf as [Ho Hpat].
        apply String.eqb_eq in Hpat. rewrite Ho, Hpat. reflexivity. }
      rewrite Hq. destruct (open_loan_of q new); cbn [List.length]; lia. }
  destruct (date_of (loan_due_date loan) <? date_of (now e2));
    eexists; eexists; (split; [reflexivity|]); cbn [books];
    (split; [exact Hbooks | exact Hcount]).
Qed.

Lemma return_after_borrow_restores_the_catalog_witness :
  exists (m2 : Message) (db2 : Database),
    return_book_by_patron (fine_at (plus_days morning 3)) zzz_on_loan "123456" 1
    = (true, m2, db2)
    /\ books db2 = books zzz_catalog
    /\ (forall q, get_patron_borrow_count db2 q = get_patron_borrow_count zzz_catalog q).
Proof.
  exact (return_after_borrow_restores_the_catalog
           (fine_at morning) (fine_at (plus_days morning 3)) zzz_catalog zzz_on_loan
           "123456" 1 (Borrowed "Zzz" (plus_days morning 14))
           eq_refl eq_refl eq_refl).
Defined.

(** X7. Once the last available copy of a book is borrowed, every further
    borrow of that book is refused and changes nothing, whoever asks and
    whatever the storage would do: a valid patron id is told that the book is
    not available, an invalid one that it is invalid. *)
Theorem last_copy_cannot_be_borrowed_twice
    (e : Env) (db db1 : Database) (patron : string) (book : Z) (m : Message)
    (bk : Book) :
  borrow_book_by_patron e db patron book = (true, m, db1) ->
  get_book_by_id db book = Some bk ->
  available_copies bk = 1 ->
  forall (e' : Env) (patron' : string),
    borrow_book_by_patron e' db1 patron' book
    = (false,
       if invalid_patron_id patron' then Invalid_patron_id else Book_not_available,
       db1).
Proof.
  intros Hborrow Hb Hone e' patron'.
  destruct (borrow_success_inversion e db db1 patron book m Hborrow)
    as (bk' & _ & Hb' & _ & _ & _ & Hdb1).
  rewrite Hb in Hb'. injection Hb' as <-.
  assert (Hb1 : get_book_by_id db1 book = Some (shift_available book (-1) bk)).
  { rewrite Hdb1. unfold get_book_by_id. cbn [books].
    rewrite get_book_after_shift. fold (get_book_by_id db book). rewrite Hb.
    reflexivity. }
  unfold borrow_book_by_patron. destruct (invalid_patron_id patron'); [reflexivity|].
  rewrite Hb1, shift_available_copies, (get_book_by_id_has_id db book bk Hb),
    Z.eqb_refl, Hone.
  reflexivity.
Qed.

Lemma last_copy_cannot_be_borrowed_twice_witness :
  borrow_book_by_patron (fine_at (plus_days morning 1)) zzz_on_loan "654321" 1
  = (false, Book_not_available, zzz_on_loan).
Proof.
  exact (last_copy_cannot_be_borrowed_twice
           (fine_at morning) zzz_catalog zzz_on_loan "123456" 1
           (Borrowed "Zzz" (plus_days morning 14)) (mkBook 1 "Zzz" "A" zzz_isbn 1 1)
           eq_refl eq_refl eq_refl (fine_at (plus_days morning 1)) "654321").
Defined.

(** X8. A return closes exactly one of the patron's open loans of the book;
    a patron who held a single one gets, for any further return of that book,
    the answer that the book was not borrowed, and the store stays as it
    is. *)
Theorem loan_is_returned_only_once
    (e : Env) (db db' : Database) (patron : string) (book : Z) (m : Message) :
  return_book_by_patron e db patron book = (true, m, db') ->
  open_loans_of_pair db' patron book = open_loans_of_pair db patron book - 1
  /\ (open_loans_of_pair db patron book = 1 ->
      forall e2 : Env,
        return_book_by_patron e2 db' patron book
        = (false, Not_borrowed_by_patron, db')).
Proof.
  intros Hret.
  destruct (return_success_inversion e db db' patron book m Hret)
    as (bk & loan & Hp & Hb & Hl & _ & Hdb').
  cbn [update_borrow_record_return_date update_book_availability snd] in Hdb'.
  pose proof (found_loan_is_open_record db book (now e) patron loan Hl) as Hopen.
  assert (Hcount : open_loans_of_pair db' patron book
                   = open_loans_of_pair db patron book - 1).
  { unfold open_loans_of_pair. rewrite Hdb'. cbn [borrow_records].
    destruct (count_after_close
                (fun r => open_loan_of patron r && (book_id r =? book))
                patron book (now e) (borrow_records db))
      as (first & _ & Hf & Hfb & Hc); [| |exact Hopen|].
    - intros r Hr. unfold open_loan_of. rewrite Hr. reflexivity.
    - intros r r' Hpat Hbk Hop. unfold open_loan_of. rewrite Hpat, Hbk, Hop.
      reflexivity.
    - rewrite Hc, Hf, Hfb, Z.eqb_refl. reflexivity. }
  split; [exact Hcount|]. intros Hone e2.
  assert (Hb' : get_book_by_id db' book = Some (shift_available book 1 bk)).
  { rewrite Hdb'. unfold get_book_by_id. cbn [books].
    rewrite get_book_after_shift. fold (get_book_by_id db book). rewrite Hb.
    reflexivity. }
  unfold return_book_by_patron. rewrite Hp, Hb'.
  rewrite (no_open_record_not_listed (now e2) db' patron book) by lia.
  reflexivity.
Qed.

Lemma loan_is_returned_only_once_witness :
  let db' := snd (return_book_by_patron (fine_at (plus_days morning 3))
                                        zzz_on_loan "123456" 1) in
  return_book_by_patron (fine_at (plus_days morning 4)) db' "123456" 1
  = (false, Not_borrowed_by_patron, db').
Proof.
  intros db'.
  exact (proj2 (loan_is_returned_only_once
                  (fine_at (plus_days morning 3)) zzz_on_loan db' "123456" 1
                  (Returned "Zzz") eq_refl)
               eq_refl (fine_at (plus_days morning 4))).
Defined.

(** X9. A call that is refused never changes the catalog, and it changes
    nothing at all unless its answer is the storage error on the availability
    update (the one refusal that comes after a write). *)
Theorem refused_call_keeps_the_catalog (e : Env) (r : Request) (db : Database) :
  fst (fst (serve e r db)) = false ->
  books (snd (serve e r db)) = books db
  /\ (snd (fst (serve e r db)) <> Db_error_updating_availability ->
      snd (serve e r db) = db).
Proof.
  destruct r as [t a i n | p b | p b]; cbn [serve].
  - rewrite add_book_to_catalog_cases.
    repeat match goal with
           | |- context [if ?c then _ else _] => destruct c
           | |- context [match ?n with Py.Int _ => _ | _ => _ end] => destruct n
           end; cbn; intros H; try discriminate H; split; reflexivity.
  - unfold borrow_book_by_patron.
    destruct (invalid_patron_id p); [split; reflexivity|].
    destruct (get_book_by_id db b) as [bk|]; [|split; reflexivity].
    destruct (available_copies bk <=? 0); [split; reflexivity|].
    destruct (5 <? get_patron_borrow_count db p); [split; reflexivity|].
    destruct (insert_borrow_record_ok e); [|split; reflexivity].
    destruct (update_book_availability_ok e); cbn; intros H;
      [discriminate H|]. split; [reflexivity | intros Hm; contradiction].
  - unfold return_book_by_patron.
    destruct (invalid_patron_id p); [split; reflexivity|].
    destruct (get_book_by_id db b) as [bk|]; [|split; reflexivity].
    destruct (find _ _) as [loan|]; [|split; reflexivity].
    destruct (update_borrow_record_return_date_ok e); [|split; reflexivity].
    destruct (update_book_availability_ok e); cbn.
    + destruct (date_of (loan_due_date loan) <? date_of (now e));
        intros H; discriminate H.
    + intros _. split; [reflexivity | intros Hm; contradiction].
Qed.

Lemma refused_call_keeps_the_catalog_witness :
  snd (serve (fine_at morning) (Borrow "12345" 1) zzz_catalog) = zzz_catalog.
Proof.
  apply (proj2 (refused_call_keeps_the_catalog
                  (fine_at morning) (Borrow "12345" 1) zzz_catalog eq_refl)).
  discriminate.
Defined.

(** ** What every reachable store satisfies *)

Lemma lstrip_no_leading_space (s : string) : no_leading_space (Py.lstrip s).
Proof.
  induction s as [|c s IH]; [exact I|]. cbn [Py.lstrip].
  destruct (Py.isspace c) eqn:E; [exact IH | exact E].
Qed.

Lemma lstrip_of_no_leading_space (s : string) :
  no_leading_space s -> Py.lstrip s = s.
Proof.
  destruct s as [|c s]; [reflexivity|]. cbn [no_leading_space Py.lstrip].
  intros ->. reflexivity.
Qed.

Lemma rstrip_no_leading_space (s : string) :
  no_leading_space s -> no_leading_space (Py.rstrip s).
Proof.
  destruct s as [|c s]; [exact (fun H => H)|]. cbn [no_leading_space Py.rstrip].
  intros H. destruct (Py.rstrip s); [rewrite H|]; exact H.
Qed.

Lemma rstrip_idempotent (s : string) : Py.rstrip (Py.rstrip s) = Py.rstrip s.
Proof.
  induction s as [|c s IH]; [reflexivity|]. cbn [Py.rstrip].
  destruct (Py.rstrip s) as [|d r] eqn:E.
  - destruct (Py.isspace c) eqn:Ec; [reflexivity|]. cbn [Py.rstrip]. rewrite Ec.
    reflexivity.
  - change (Py.rstrip (String c (String d r)))
      with (match Py.rstrip (String d r) with
            | EmptyString => if Py.isspace c then EmptyString else String c EmptyString
            | String _ _ as r' => String c r'
            end).
    rewrite IH. reflexivity.
Qed.

(** Trimming a trimmed string changes nothing. *)
Lemma strip_idempotent (s : string) : Py.strip (Py.strip s) = Py.strip s.
Proof.
  unfold Py.strip.
  rewrite (lstrip_of_no_leading_space (Py.rstrip (Py.lstrip s))).
  - apply rstrip_idempotent.
  - apply rstrip_no_leading_space, lstrip_no_leading_space.
Qed.

Lemma next_book_id_positive (db : Database) : 1 <= next_book_id db.
Proof.
  unfold next_book_id. induction (books db) as [|x l IH]; cbn [fold_right]; lia.
Qed.

Lemma isbn_not_in_catalog (db : Database) (i : string) :
  get_book_by_isbn db i = None -> ~ In i (map isbn (books db)).
Proof.
  unfold get_book_by_isbn. intros Hnone Hin. apply in_map_iff in Hin.
  destruct Hin as (bk & Hi & Hin). pose proof (find_none _ _ Hnone bk Hin) as H.
  cbv beta in H. rewrite Hi, String.eqb_refl in H. discriminate H.
Qed.

(** What [add] did when it answered with success. *)
Lemma add_success_inversion (e : Env) (db db1 : Database)
    (t a i : string) (n : Py.value) (m : Message) :
  add_book_to_catalog e db t a i n = (true, m, db1) ->
  exists copies : Z,
    n = Py.Int copies
    /\ 0 < copies
    /\ Py.strip t <> EmptyString
    /\ Py.len (Py.strip t) <= 200
    /\ Py.strip a <> EmptyString
    /\ Py.len (Py.strip a) <= 100
    /\ Py.len i = 13
    /\ get_book_by_isbn db i = None
    /\ m = Book_added (Py.strip t)
    /\ db1 = mkDatabase
               (books db ++ [mkBook (next_book_id db) (Py.strip t) (Py.strip a)
                                    i copies copies])
               (borrow_records db).
Proof.
  rewrite add_book_to_catalog_cases. cbn [rule_fails].
  destruct (String.eqb_spec (Py.strip t) EmptyString) as [|Ht]; [discriminate|].
  destruct (200 <? Py.len (Py.strip t)) eqn:Et; [discriminate|].
  destruct (String.eqb_spec (Py.strip a) EmptyString) as [|Ha]; [discriminate|].
  destruct (100 <? Py.len (Py.strip a)) eqn:Ea; [discriminate|].
  destruct (Py.len i =? 13) eqn:Ei; [|discriminate]. cbn [negb].
  destruct n as [copies| | |]; try discriminate.
  destruct (copies <=? 0) eqn:Ec; [discriminate|].
  destruct (get_book_by_isbn db i) eqn:Eb; [discriminate|].
  destruct (insert_book_ok e); [|discriminate].
  intros H. injection H as <- <-. exists copies.
  apply Z.ltb_ge in Et. apply Z.ltb_ge in Ea. apply Z.eqb_eq in Ei.
  apply Z.leb_gt in Ec. repeat split; assumption.
Qed.

(** The store after a borrow: untouched, or with the record of a valid patron
    who held at most five loans, and the decrement if it was written. *)
Lemma borrow_effect (e : Env) (db : Database) (patron : string) (book : Z) :
  snd (borrow_book_by_patron e db patron book) = db
  \/ (invalid_patron_id patron = false
      /\ get_book_by_id db book <> None
      /\ get_patron_borrow_count db patron <= 5
      /\ snd (borrow_book_by_patron e db patron book)
         = mkDatabase
             (if update_book_availability_ok e
              then map (shift_available book (-1)) (books db) else books db)
             (borrow_records db
                ++ [mkBorrowRecord patron book (now e) (plus_days (now e) 14) None])).
Proof.
  unfold borrow_book_by_patron.
  destruct (invalid_patron_id patron); [left; reflexivity|].
  destruct (get_book_by_id db book) as [bk|]; [|left; reflexivity].
  destruct (available_copies bk <=? 0); [left; reflexivity|].
  destruct (5 <? get_patron_borrow_count db patron) eqn:Ec; [left; reflexivity|].
  destruct (insert_borrow_record_ok e); [|left; reflexivity].
  right. apply Z.ltb_ge in Ec. split; [reflexivity|]. split; [discriminate|].
  split; [exact Ec|]. destruct (update_book_availability_ok e); reflexivity.
Qed.

(** The store after a return: untouched, or with the first open loan of the
    pair closed, and the increment if it was written. *)
Lemma return_effect (e : Env) (db : Database) (patron : string) (book : Z) :
  snd (return_book_by_patron e db patron book) = db
  \/ ((exists r, In r (borrow_records db)
                 /\ open_loan_of patron r = true /\ book_id r = book)
      /\ snd (return_book_by_patron e db patron book)
         = mkDatabase
             (if update_book_availability_ok e
              then map (shift_available book 1) (books db) else books db)
             (close_first_loan patron book (now e) (borrow_records db))).
Proof.
  destruct (return_store_cases e db patron book) as [H | [Hopen H]];
    [left; exact H|].
  right. split; [exact Hopen|]. rewrite H. cbv zeta. cbn [books borrow_records].
  destruct (update_book_availability_ok e); reflexivity.
Qed.

Lemma close_first_loan_fields (p : string) (b : Z) (returned : datetime)
    (l : list BorrowRecord) (r : BorrowRecord) :
  In r (close_first_loan p b returned l) ->
  exists r0,
    In r0 l /\ patron_id r0 = patron_id r /\ book_id r0 = book_id r
    /\ borrow_date r0 = borrow_date r /\ due_date r0 = due_date r.
Proof.
  induction l as [|x l IH]; [contradiction|]. cbn [close_first_loan].
  destruct (open_loan_of p x && (book_id x =? b)).
  - intros [<- | H]; [exists x | exists r]; repeat split; auto using in_eq, in_cons.
  - intros [<- | H]; [exists x; repeat split; auto using in_eq|].
    destruct (IH H) as (r0 & Hin & Hrest). exists r0. split; auto using in_cons.
Qed.

Lemma shifted_catalog (b delta : Z) (l : list Book) :
  map id (map (shift_available b delta) l) = map id l
  /\ map isbn (map (shift_available b delta) l) = map isbn l
  /\ (Forall well_formed_book l ->
      Forall well_formed_book (map (shift_available b delta) l)).
Proof.
  assert (Hsame : forall bk,
             id (shift_available b delta bk) = id bk
             /\ isbn (shift_available b delta bk) = isbn bk
             /\ title (shift_available b delta bk) = title bk
             /\ author (shift_available b delta bk) = author bk
             /\ total_copies (shift_available b delta bk) = total_copies bk).
  { intros bk. unfold shift_available. destruct (id bk =? b); repeat split. }
  split; [|split].
  - rewrite map_map. apply map_ext. intros bk. apply Hsame.
  - rewrite map_map. apply map_ext. intros bk. apply Hsame.
  - intros H. apply Forall_map. revert H. apply Forall_impl. intros bk.
    unfold well_formed_book.
    destruct (Hsame bk) as (-> & -> & -> & -> & ->). exact (fun H => H).
Qed.

Lemma records_stay_well_formed (db db' : Database) (l : list BorrowRecord) :
  (forall i, In i (map id (books db)) -> In i (map id (books db'))) ->
  Forall (well_formed_record db) l -> Forall (well_formed_record db') l.
Proof.
  intros Hids. apply Forall_impl. intros r (H1 & H2 & H3).
  repeat split; auto.
Qed.

Lemma init_database_well_formed : well_formed_store init_database.
Proof.
  repeat split; try constructor. intros p. unfold get_patron_borrow_count.
  cbn. lia.
Qed.

Lemma serve_preserves_well_formed (e : Env) (r : Request) (db : Database) :
  well_formed_store db -> well_formed_store (snd (serve e r db)).
Proof.
  intros (Hids & Hisbns & Hbooks & Hrecords & Hcount).
  destruct r as [t a i n | p b | p b]; cbn [serve].
  - (* add *)
    destruct (add_book_to_catalog e db t a i n) as [[ok m] db1] eqn:E.
    destruct ok.
    + destruct (add_success_inversion e db db1 t a i n m E)
        as (copies & _ & Hpos & Ht & Htl & Ha & Hal & Hi & Hfree & _ & ->).
      cbn [snd]. unfold well_formed_store. cbn [books borrow_records].
      rewrite !map_app. cbn [map id isbn].
      split; [|split; [|split; [|split]]].
      * apply NoDup_app; [exact Hids | repeat constructor; intros [] |].
        intros x Hx [<- | []]. exact (next_book_id_is_fresh db Hx).
      * apply NoDup_app; [exact Hisbns | repeat constructor; intros [] |].
        intros x Hx [<- | []]. exact (isbn_not_in_catalog db i Hfree Hx).
      * apply Forall_app. split; [exact Hbooks|]. constructor; [|constructor].
        unfold well_formed_book.
        cbn [id total_copies isbn title author].
        rewrite !strip_idempotent.
        pose proof (next_book_id_positive db). repeat split; assumption.
      * revert Hrecords. apply records_stay_well_formed. cbn [books].
        intros x Hx. rewrite map_app. apply in_or_app. left. exact Hx.
      * exact Hcount.
    + destruct (add_store_cases e db t a i n) as [H | (c & _ & _ & H & _)];
        rewrite E in H; cbn [fst snd] in H; [|discriminate H].
      cbn [snd]. rewrite H. repeat split; assumption.
  - (* borrow *)
    destruct (borrow_effect e db p b) as [-> | (Hp & Hb & Hfive & ->)];
      [repeat split; assumption|].
    apply get_book_by_id_known in Hb.
    set (books' := if update_book_availability_ok e
                   then map (shift_available b (-1)) (books db) else books db).
    assert (Hsame : map id books' = map id (books db)
                    /\ map isbn books' = map isbn (books db)
                    /\ Forall well_formed_book books').
    { unfold books'. destruct (update_book_availability_ok e); [|auto].
      destruct (shifted_catalog b (-1) (books db)) as (H1 & H2 & H3). auto. }
    destruct Hsame as (Hi1 & Hi2 & Hwf).
    unfold well_formed_store. cbn [books borrow_records]. rewrite Hi1, Hi2.
    split; [exact Hids|]. split; [exact Hisbns|]. split; [exact Hwf|]. split.
    + apply Forall_app. split.
      * revert Hrecords. apply records_stay_well_formed. cbn [books].
        rewrite Hi1. auto.
      * constructor; [|constructor]. unfold well_formed_record.
        cbn [patron_id book_id borrow_date due_date books]. rewrite Hi1.
        repeat split; assumption.
    + intros q. specialize (Hcount q).
      unfold get_patron_borrow_count in *. cbn [borrow_records].
      rewrite filter_app, length_app.
      cbn [filter open_loan_of is_open return_date patron_id andb].
      destruct (String.eqb_spec p q) as [-> | Hne]; cbn [List.length]; lia.
  - (* return *)
    destruct (return_effect e db p b) as [-> | (Hopen & ->)];
      [repeat split; assumption|].
    set (books' := if update_book_availability_ok e
                   then map (shift_available b 1) (books db) else books db).
    assert (Hsame : map id books' = map id (books db)
                    /\ map isbn books' = map isbn (books db)
                    /\ Forall well_formed_book books').
    { unfold books'. destruct (update_book_availability_ok e); [|auto].
      destruct (shifted_catalog b 1 (books db)) as (H1 & H2 & H3). auto. }
    destruct Hsame as (Hi1 & Hi2 & Hwf).
    unfold well_formed_store. cbn [books borrow_records]. rewrite Hi1, Hi2.
    split; [exact Hids|]. split; [exact Hisbns|]. split; [exact Hwf|]. split.
    + apply Forall_forall. intros r Hr.
      destruct (close_first_loan_fields p b (now e) _ r Hr)
        as (r0 & Hin & H1 & H2 & H3 & H4).
      pose proof (proj1 (Forall_forall _ _) Hrecords r0 Hin) as (W1 & W2 & W3).
      unfold well_formed_record. cbn [books]. rewrite Hi1, <- H1, <- H2, <- H3, <- H4.
      repeat split; assumption.
    + intros q. specialize (Hcount q).
      unfold get_patron_borrow_count in *. cbn [borrow_records].
      destruct (count_after_close (open_loan_of q) p b (now e) (borrow_records db))
        as (first & _ & _ & _ & Hc); [| |exact Hopen|].
      * intros r Hr. unfold open_loan_of. rewrite Hr. reflexivity.
      * intros r r' Hpat _ Hop. unfold open_loan_of. rewrite Hpat, Hop. reflexivity.
      * rewrite Hc. destruct (open_loan_of q first); lia.
Qed.

Lemma reachable_store_well_formed (calls : list (Env * Request)) :
  forall db, well_formed_store db -> well_formed_store (run calls db).
Proof.
  induction calls as [|[e r] calls IH]; intros db H; [exact H|].
  cbn [run]. apply IH, serve_preserves_well_formed, H.
Qed.

(** X10. In every store the service can reach from the empty one, whatever
    the calls and whichever storage writes failed, no two books share an id
    or an isbn, and every book is as [add] accepts one: positive number of
    copies, isbn of 13 characters, title and author trimmed, not empty, and at
    most 200 and 100 characters long. *)
Theorem catalog_stays_well_formed (calls : list (Env * Request)) :
  let db := run calls init_database in
  NoDup (map id (books db))
  /\ NoDup (map isbn (books db))
  /\ Forall well_formed_book (books db).
Proof.
  destruct (reachable_store_well_formed calls _ init_database_well_formed)
    as (H1 & H2 & H3 & _). auto.
Qed.

(** X11. In every store the service can reach, every borrow record, open or
    returned, is held by a valid patron id, is of a book of the catalog, and
    is due exactly 14 days after it was borrowed: a return or a later call
    never moves a due date. *)
Theorem borrow_records_stay_well_formed (calls : list (Env * Request)) :
  let db := run calls init_database in
  forall r, In r (borrow_records db) ->
    invalid_patron_id (patron_id r) = false
    /\ get_book_by_id db (book_id r) <> None
    /\ due_date r = plus_days (borrow_date r) 14
    /\ date_of (due_date r) = date_of (borrow_date r) + 14.
Proof.
  intros db r Hr.
  destruct (reachable_store_well_formed calls _ init_database_well_formed)
    as (_ & _ & _ & H & _).
  destruct (proj1 (Forall_forall _ _) H r Hr) as (H1 & H2 & H3).
  split; [exact H1|]. split; [apply get_book_by_id_known; exact H2|].
  split; [exact H3|]. rewrite H3. apply date_of_plus_days.
Qed.

(** X12. No patron ever holds more than six loans at a time, in any store the
    service can reach; and six are reached. *)
Theorem no_patron_holds_more_than_six_loans :
  (forall (calls : list (Env * Request)) (patron : string),
      get_patron_borrow_count (run calls init_database) patron <= 6)
  /\ (exists (calls : list (Env * Request)) (patron : string),
         get_patron_borrow_count (run calls init_database) patron = 6).
Proof.
  split.
  - intros calls patron.
    destruct (reachable_store_well_formed calls _ init_database_well_formed)
      as (_ & _ & _ & _ & H). apply H.
  - exists ((fine_at morning,
             Add "Dune" "Frank Herbert" "9780441013593" (Py.Int 9))
            :: repeat (fine_at morning, Borrow "222222" 1) 6), "222222".
    reflexivity.
Qed.

Lemma borrow_records_stay_well_formed_witness :
  let calls := [(fine_at morning, Add "Zzz" "A" zzz_isbn (Py.Int 1));
                (fine_at morning, Borrow "123456" 1)] in
  let r := mkBorrowRecord "123456" 1 morning (plus_days morning 14) None in
  invalid_patron_id (patron_id r) = false
  /\ get_book_by_id (run calls init_database) (book_id r) <> None
  /\ due_date r = plus_days (borrow_date r) 14
  /\ date_of (due_date r) = date_of (borrow_date r) + 14.
Proof.
  intros calls r.
  exact (borrow_records_stay_well_formed calls r (or_introl eq_refl)).
Defined.

(** ** More on searching *)

Section OrderBy.

Context {A : Type} (le : A -> A -> bool).
Hypothesis le_total : forall x y, le x y = true \/ le y x = true.

Lemma insert_sorted_permutation (x : A) (l : list A) :
  Permutation (Sqlite.insert_sorted le x l) (x :: l).
Proof.
  induction l as [|y l IH]; cbn [Sqlite.insert_sorted]; [reflexivity|].
  destruct (le x y); [reflexivity|].
  rewrite IH. apply perm_swap.
Qed.

Lemma order_by_permutation (l : list A) : Permutation (Sqlite.order_by le l) l.
Proof.
  unfold Sqlite.order_by. induction l as [|x l IH]; [reflexivity|].
  cbn [fold_right]. rewrite insert_sorted_permutation. apply perm_skip, IH.
Qed.

Lemma insert_sorted_sorted (x : A) (l : list A) :
  Sorted (fun a b => le a b = true) l ->
  Sorted (fun a b => le a b = true) (Sqlite.insert_sorted le x l).
Proof.
  induction l as [|y l IH]; intros Hs; cbn [Sqlite.insert_sorted].
  - repeat constructor.
  - destruct (le x y) eqn:E.
    + constructor; [exact Hs | constructor; exact E].
    + apply Sorted_inv in Hs. destruct Hs as [Hs Hhd].
      constructor; [exact (IH Hs)|].
      assert (Hyx : le y x = true)
        by (destruct (le_total x y) as [H | H]; [congruence | exact H]).
      destruct l as [|z l]; cbn [Sqlite.insert_sorted].
      * constructor. exact Hyx.
      * destruct (le x z); constructor; [exact Hyx|].
        apply HdRel_inv in Hhd. exact Hhd.
Qed.

Lemma order_by_sorted (l : list A) :
  Sorted (fun a b => le a b = true) (Sqlite.order_by le l).
Proof.
  unfold Sqlite.order_by. induction l as [|x l IH]; [constructor|].
  cbn [fold_right]. apply insert_sorted_sorted, IH.
Qed.

End OrderBy.

(** What a search returns, in one equation: nothing unless it runs, and else
    the matching rows in title order. *)
Lemma search_books_in_catalog_result (e : Env) (db : Database) (term kind : string) :
  (search_runs e term kind ->
   search_books_in_catalog e db term kind
   = order_by_title (filter (search_matches term kind) (books db)))
  /\ (~ search_runs e term kind -> search_books_in_catalog e db term kind = []).
Proof.
  unfold search_runs, search_books_in_catalog.
  rewrite blank_after_strip, rows_as_dictionaries.
  destruct (String.eqb_spec (Py.strip term) EmptyString) as [E | E].
  - split; [intros (_ & H & _); contradiction | reflexivity].
  - cbn [existsb orb].
    destruct (String.eqb_spec kind "title") as [-> | Ht].
    + cbn [negb]. destruct (query_ok e); cbn [negb].
      * split; [intros _; reflexivity|]. intros H. exfalso. apply H.
           split; [reflexivity | split; [exact E | cbn [In]; tauto]].
      * split; [intros (H & _); discriminate H | reflexivity].
    + destruct (String.eqb_spec kind "author") as [-> | Ha].
      * cbn [negb]. destruct (query_ok e); cbn [negb].
        -- split; [intros _; reflexivity|]. intros H. exfalso. apply H.
           split; [reflexivity | split; [exact E | cbn [In]; tauto]].
        -- split; [intros (H & _); discriminate H | reflexivity].
      * destruct (String.eqb_spec kind "isbn") as [-> | Hi].
        -- cbn [negb]. destruct (query_ok e); cbn [negb].
           ++ split; [intros _; reflexivity|]. intros H. exfalso. apply H.
           split; [reflexivity | split; [exact E | cbn [In]; tauto]].
           ++ split; [intros (H & _); discriminate H | reflexivity].
        -- cbn [negb]. split; [|reflexivity].
           intros (_ & _ & [H | [H | [H | []]]]); congruence.
Qed.

Lemma search_runs_or_not (e : Env) (term kind : string) :
  search_runs e term kind \/ ~ search_runs e term kind.
Proof.
  unfold search_runs.
  destruct (query_ok e); [|right; intros (H & _); discriminate H].
  destruct (String.eqb_spec (Py.strip term) EmptyString) as [E | E];
    [right; intros (_ & H & _); contradiction|].
  destruct (in_dec string_dec kind ["title"; "author"; "isbn"]) as [H | H];
    [left; auto | right; intros (_ & _ & H'); contradiction].
Qed.



Section LikeItself.

Import Sqlite.

Lemma eq_nocase_refl (c : ascii) : eq_nocase c c = true.
Proof.
  unfold eq_nocase. apply Ascii.eqb_refl.
Qed.

(** A pattern matches the string it is spelled with, wildcards included. *)
Lemma like_own_prefix (p : string) : like (p ++ "%") p = true.
Proof.
  induction p as [|c p IH]; [reflexivity|].
  change (String c p ++ "%") with (String c (p ++ "%")).
  destruct (Ascii.eqb_spec c "%") as [-> | H1].
  - rewrite like_percent. apply orb_true_iff. right.
    rewrite like_percent, IH. reflexivity.
  - destruct (Ascii.eqb_spec c "_") as [-> | H2].
    + cbn [like]. change (("_" =? "%")%char) with false.
      change (("_" =? "_")%char) with true. cbv iota. exact IH.
    + rewrite like_literal by (apply Ascii.eqb_neq; assumption).
      rewrite eq_nocase_refl, IH. reflexivity.
Qed.

Lemma like_itself (s : string) : like ("%" ++ s ++ "%") s = true.
Proof.
  change ("%" ++ s ++ "%") with (String "%" (s ++ "%")).
  rewrite like_percent, like_own_prefix. reflexivity.
Qed.

End LikeItself.

(** X14. Whatever its title and author, a book that [add] has just stored is
    found by a title search for the title it was given and by an author search
    for the author it was given, as long as the query runs; an isbn search for
    its isbn finds it exactly when that isbn neither begins nor ends with white
    space. *)
Theorem added_book_is_found_by_its_own_fields
    (e0 e : Env) (db0 db1 : Database) (t a i : string) (n : Py.value) (m : Message) :
  add_book_to_catalog e0 db0 t a i n = (true, m, db1) ->
  query_ok e = true ->
  exists bk : Book,
    get_book_by_id db1 (next_book_id db0) = Some bk
    /\ title bk = Py.strip t /\ author bk = Py.strip a /\ isbn bk = i
    /\ In bk (search_books_in_catalog e db1 t "title")
    /\ In bk (search_books_in_catalog e db1 a "author")
    /\ (In bk (search_books_in_catalog e db1 i "isbn") <-> Py.strip i = i).
Proof.
  intros Hadd Hq.
  destruct (add_success_inversion e0 db0 db1 t a i n m Hadd)
    as (copies & _ & _ & Ht & _ & Ha & _ & Hi & _ & _ & Hdb1).
  set (bk := mkBook (next_book_id db0) (Py.strip t) (Py.strip a) i copies copies) in *.
  assert (Hin : In bk (books db1)).
  { rewrite Hdb1. cbn [books]. apply in_or_app. right. apply in_eq. }
  exists bk. split.
  { rewrite Hdb1. unfold get_book_by_id. cbn [books]. rewrite find_past_prefix.
    - cbn [find id bk]. rewrite Z.eqb_refl. reflexivity.
    - destruct (find (fun x => id x =? next_book_id db0) (books db0)) eqn:E;
        [|reflexivity].
      exfalso. apply (next_book_id_is_fresh db0). apply get_book_by_id_known.
      unfold get_book_by_id. rewrite E. discriminate. }
  split; [reflexivity|]. split; [reflexivity|]. split; [reflexivity|].
  split; [|split].
  - apply (search_by_column e db1 t "title" bk Hq); [left; reflexivity|].
    split; [exact Ht|]. split; [exact Hin|]. apply like_itself.
  - apply (search_by_column e db1 a "author" bk Hq); [right; reflexivity|].
    split; [exact Ha|]. split; [exact Hin|]. apply like_itself.
  - rewrite (search_by_isbn e db1 i bk Hq). cbn [isbn bk]. split.
    + intros (_ & _ & H). symmetry. exact H.
    + intros H. split; [|split; [exact Hin | symmetry; exact H]].
      rewrite H. intros ->. discriminate Hi.
Qed.

Lemma added_book_is_found_by_its_own_fields_witness :
  let db1 := snd (add_book_to_catalog (fine_at morning) init_database
                    "100%_Pure" " Ann_O " " 123456789012" (Py.Int 2)) in
  exists bk : Book,
    get_book_by_id db1 1 = Some bk
    /\ title bk = "100%_Pure" /\ author bk = "Ann_O" /\ isbn bk = " 123456789012"
    /\ In bk (search_books_in_catalog (fine_at morning) db1 "100%_Pure" "title")
    /\ In bk (search_books_in_catalog (fine_at morning) db1 " Ann_O " "author")
    /\ (In bk (search_books_in_catalog (fine_at morning) db1 " 123456789012" "isbn")
        <-> "123456789012" = " 123456789012").
Proof.
  intros db1.
  exact (added_book_is_found_by_its_own_fields
           (fine_at morning) (fine_at morning) init_database db1
           "100%_Pure" " Ann_O " " 123456789012" (Py.Int 2)
           (Book_added "100%_Pure") eq_refl eq_refl).
Defined.

Lemma at_most_one_with_key (l : list Book) (v : string) :
  NoDup (map isbn l) ->
  (List.length (filter (fun b => (isbn b =? v)%string) l) <= 1)%nat.
Proof.
  induction l as [|x l IH]; intros Hnd; [cbn; lia|].
  cbn [map] in Hnd. inversion Hnd as [|? ? Hx Hnd']; subst.
  cbn [filter]. destruct (String.eqb_spec (isbn x) v) as [E | E]; [|auto].
  cbn [List.length].
  destruct (filter (fun b => (isbn b =? v)%string) l) as [|y rest] eqn:F;
    [cbn; lia|].
  exfalso. apply Hx.
  assert (Hy : In y (filter (fun b => (isbn b =? v)%string) l))
    by (rewrite F; apply in_eq).
  apply filter_In in Hy. destruct Hy as [Hy Hv]. apply String.eqb_eq in Hv.
  rewrite E, <- Hv. apply in_map. exact Hy.
Qed.

(** X15. In every store the service can reach, an isbn search returns at most
    one book. *)
Theorem isbn_search_returns_at_most_one_book
    (calls : list (Env * Request)) (e : Env) (term : string) :
  (List.length (search_books_in_catalog e (run calls init_database) term "isbn")
   <= 1)%nat.
Proof.
  destruct (reachable_store_well_formed calls _ init_database_well_formed)
    as (_ & Hisbns & _).
  destruct (search_books_in_catalog_result e (run calls init_database) term "isbn")
    as [Hruns Hnot].
  destruct (search_runs_or_not e term "isbn") as [H | H].
  - rewrite (Hruns H). unfold order_by_title.
    rewrite (Permutation_length (order_by_permutation _ _)).
    exact (at_most_one_with_key _ (Py.strip term) Hisbns).
  - rewrite (Hnot H). cbn. lia.
Qed.

(** ** More on the patron status report *)

(** The report of a valid patron whose history query ran, field by field. *)
Lemma report_fields (e : Env) (db : Database) (patron : string) :
  invalid_patron_id patron = false ->
  error (get_patron_status_report e db patron) = None ->
  let r := get_patron_status_report e db patron in
  let loans := get_patron_borrowed_books (now e) db patron in
  query_ok e = true
  /\ total_borrowed r = Z.of_nat (List.length loans)
  /\ map current_book_id (current_books r) = map loan_book_id loans
  /\ map current_is_overdue (current_books r) = map is_overdue loans
  /\ borrow_history r = map history_entry (history_rows db patron)
  /\ total_fees r
     == sum_fees
          (map (fun loan =>
                  fee_amount (calculate_late_fee_for_book e db patron
                                                          (loan_book_id loan)))
               (filter is_overdue loans)).
Proof.
  intros Hp Herr. cbv zeta. unfold get_patron_status_report in *. rewrite Hp in *.
  destruct (query_ok e); [|discriminate Herr].
  cbn [negb total_borrowed current_books borrow_history total_fees].
  split; [reflexivity|]. split; [reflexivity|]. rewrite !map_map.
  split; [reflexivity|]. split; [reflexivity|]. split; [reflexivity|].
  set (fee_of := fun loan : BorrowedBook =>
         fee_amount (calculate_late_fee_for_book e db patron (loan_book_id loan))).
  set (loans := get_patron_borrowed_books (now e) db patron).
  set (total := sum_fees (map fee_of (filter is_overdue loans))).
  transitivity (Py.round2 total).
  - apply round2_compat.
    transitivity (0 + total)%Q; [exact (fees_loop_is_sum fee_of loans 0) | ring].
  - destruct (sum_of_halves (map fee_of (filter is_overdue loans))) as [h Hh].
    + intros q Hq. apply in_map_iff in Hq. destruct Hq as (loan & <- & _).
      apply calculator_fee_in_halves.
    + apply (round2_of_halves _ h). exact Hh.
Qed.

Lemma sum_fees_bounds (l : list Q) :
  (forall q, In q l -> (0 <= q <= 15)%Q) ->
  (0 <= sum_fees l <= 15 * inject_Z (Z.of_nat (List.length l)))%Q.
Proof.
  induction l as [|q l IH]; intros H.
  - cbn. split; discriminate.
  - destruct (H q (in_eq q l)) as [H0 H15].
    destruct IH as [IH0 IH15]; [intros q' Hq'; apply H, in_cons, Hq'|].
    cbn [sum_fees fold_right List.length]. fold (sum_fees l).
    rewrite Nat2Z.inj_succ. unfold Z.succ. rewrite inject_Z_plus.
    split.
    + apply (Qle_trans _ (0 + 0)); [discriminate|]. apply Qplus_le_compat; assumption.
    + apply (Qle_trans _ (15 + 15 * inject_Z (Z.of_nat (List.length l)))).
      * apply Qplus_le_compat; assumption.
      * apply Qle_lteq. right. ring.
Qed.

Lemma calculator_fee_bounds (e : Env) (db : Database) (patron : string) (book : Z) :
  (0 <= fee_amount (calculate_late_fee_for_book e db patron book) <= 15)%Q.
Proof.
  split; [|apply calculate_late_fee_capped].
  destruct (calculate_late_fee_cases e db patron book)
    as [(Hf & _) | (bk & loan & _ & _ & _ & _ & Hpos & Hf & _)]; cbv zeta in *.
  - rewrite Hf. discriminate.
  - rewrite Hf. unfold half_dollars. q_lia.
Qed.

Lemma filter_insert_sorted_length {A : Type} (le : A -> A -> bool) (g : A -> bool)
    (x : A) (l : list A) :
  List.length (filter g (Sqlite.insert_sorted le x l))
  = List.length (filter g (x :: l)).
Proof.
  induction l as [|y l IH]; cbn [Sqlite.insert_sorted]; [reflexivity|].
  destruct (le x y); [reflexivity|]. cbn [filter] in *.
  destruct (g y), (g x); cbn [List.length] in *; lia.
Qed.

Lemma filter_order_by_length {A : Type} (le : A -> A -> bool) (g : A -> bool)
    (l : list A) :
  List.length (filter g (Sqlite.order_by le l)) = List.length (filter g l).
Proof.
  unfold Sqlite.order_by. induction l as [|x l IH]; [reflexivity|].
  cbn [fold_right]. rewrite (filter_insert_sorted_length le).
  cbn [filter]. destruct (g x); cbn [List.length]; lia.
Qed.

(** The lines of the history that say "Borrowed" are as many as the loans of
    the patron's list. *)
Lemma borrowed_lines_are_the_loans (clock : datetime) (db : Database) (patron : string) :
  count_borrowed (map history_entry (history_rows db patron))
  = Z.of_nat (List.length (get_patron_borrowed_books clock db patron)).
Proof.
  unfold count_borrowed, history_rows, get_patron_borrowed_books. f_equal.
  rewrite filter_map_swap, length_map, filter_order_by_length.
  induction (borrow_records db) as [|r l IH]; [reflexivity|].
  cbn [flat_map]. rewrite filter_app, !length_app, IH. f_equal.
  unfold open_loan_of, is_open.
  destruct (patron_id r =? patron)%string; [|rewrite andb_false_r; reflexivity].
  rewrite andb_true_r.
  destruct (get_book_by_id db (book_id r)) as [bk|];
    [|destruct (return_date r); reflexivity].
  cbn [filter history_entry history_status fst].
  destruct (return_date r); reflexivity.
Qed.

(** X16. In the report of a valid patron (the history query having run) the
    number of books borrowed is the number of current loans listed, which is
    also the number of history lines marked "Borrowed"; and the total fees lie
    between 0.00 and 15.00 times that number. *)
Theorem report_counts_agree (e : Env) (db : Database) (patron : string) :
  invalid_patron_id patron = false ->
  error (get_patron_status_report e db patron) = None ->
  let r := get_patron_status_report e db patron in
  total_borrowed r = Z.of_nat (List.length (current_books r))
  /\ count_borrowed (borrow_history r) = total_borrowed r
  /\ (total_borrowed r <= Z.of_nat (List.length (borrow_history r)))
  /\ (0 <= total_fees r <= 15 * inject_Z (total_borrowed r))%Q.
Proof.
  intros Hp Herr r.
  destruct (report_fields e db patron Hp Herr) as (_ & Hn & Hids & _ & Hh & Hfees).
  fold r in Hn, Hids, Hh, Hfees.
  set (loans := get_patron_borrowed_books (now e) db patron) in *.
  assert (Hcur : List.length (current_books r) = List.length loans).
  { rewrite <- (length_map current_book_id), Hids, length_map. reflexivity. }
  assert (Hb : count_borrowed (borrow_history r) = total_borrowed r).
  { rewrite Hh, Hn. apply borrowed_lines_are_the_loans. }
  split; [rewrite Hn, Hcur; reflexivity|]. split; [exact Hb|]. split.
  - rewrite <- Hb. unfold count_borrowed. apply inj_le. apply filter_length_le.
  - rewrite Hfees, Hn.
    set (fees := map _ (filter is_overdue loans)).
    destruct (sum_fees_bounds fees) as [H0 H15].
    + intros q Hq. unfold fees in Hq. apply in_map_iff in Hq.
      destruct Hq as (loan & <- & _). apply calculator_fee_bounds.
    + split; [exact H0|]. apply (Qle_trans _ _ _ H15).
      apply Qmult_le_l; [reflexivity|]. rewrite <- Zle_Qle. apply inj_le.
      unfold fees. rewrite length_map. apply filter_length_le.
Qed.

Lemma report_counts_agree_witness :
  let r := get_patron_status_report (fine_at (plus_days morning 24))
                                    zzz_on_loan "123456" in
  total_borrowed r = 1
  /\ count_borrowed (borrow_history r) = total_borrowed r.
Proof.
  intros r.
  destruct (report_counts_agree (fine_at (plus_days morning 24)) zzz_on_loan "123456"
                                eq_refl eq_refl) as (_ & H & _).
  split; [reflexivity | exact H].
Defined.

(** Where every record is of a catalogued book, the joins of the report lose
    no record. *)
Lemma joins_lose_nothing (clock : datetime) (db : Database) (patron : string)
    (l : list BorrowRecord) :
  Forall (well_formed_record db) l ->
  List.length
    (flat_map
       (fun r =>
          if open_loan_of patron r then
            match get_book_by_id db (book_id r) with
            | Some bk =>
                [mkBorrowedBook (book_id r) (title bk) (author bk)
                                (borrow_date r) (due_date r) (due_date r <? clock)]
            | None => []
            end
          else [])
       l)
  = List.length (filter (open_loan_of patron) l)
  /\ map fst
       (flat_map
          (fun br =>
             if (patron_id br =? patron)%string then
               match get_book_by_id db (book_id br) with
               | Some b => [(br, b)]
               | None => []
               end
             else [])
          l)
     = filter (fun br => (patron_id br =? patron)%string) l.
Proof.
  induction l as [|r l IH]; intros Hwf; [split; reflexivity|].
  inversion Hwf as [|? ? (_ & Hknown & _) Hwf']; subst.
  destruct (IH Hwf') as [IH1 IH2].
  apply get_book_by_id_known in Hknown.
  destruct (get_book_by_id db (book_id r)) as [bk|] eqn:E; [|contradiction].
  cbn [flat_map filter]. rewrite E, !length_app, map_app, IH1, IH2.
  unfold open_loan_of at 1 3.
  destruct (patron_id r =? patron)%string, (is_open r); split; reflexivity.
Qed.

(** X17. In every store the service can reach, the report of a valid patron
    counts as borrowed exactly the open loans that [borrow] counts against the
    limit, so at most six, and its total fees are at most 90.00. *)
Theorem report_of_a_reachable_store
    (calls : list (Env * Request)) (e : Env) (patron : string) :
  invalid_patron_id patron = false ->
  error (get_patron_status_report e (run calls init_database) patron) = None ->
  let db := run calls init_database in
  let r := get_patron_status_report e db patron in
  total_borrowed r = get_patron_borrow_count db patron
  /\ total_borrowed r <= 6
  /\ (0 <= total_fees r <= 90)%Q.
Proof.
  intros Hp Herr db r.
  destruct (reachable_store_well_formed calls _ init_database_well_formed)
    as (_ & _ & _ & Hrec & Hsix). fold db in Hrec, Hsix.
  destruct (report_fields e db patron Hp Herr) as (_ & Hn & _ & _ & _ & Hfees).
  fold r in Hn, Hfees.
  assert (Hcount : total_borrowed r = get_patron_borrow_count db patron).
  { rewrite Hn. unfold get_patron_borrow_count, get_patron_borrowed_books. f_equal.
    apply (joins_lose_nothing (now e) db patron _ Hrec). }
  split; [exact Hcount|]. split; [rewrite Hcount; apply Hsix|].
  rewrite Hfees.
  set (loans := get_patron_borrowed_books (now e) db patron) in *.
  set (fees := map _ (filter is_overdue loans)).
  destruct (sum_fees_bounds fees) as [H0 H15].
  - intros q Hq. unfold fees in Hq. apply in_map_iff in Hq.
    destruct Hq as (loan & <- & _). apply calculator_fee_bounds.
  - split; [exact H0|]. apply (Qle_trans _ _ _ H15).
    change 90%Q with (15 * inject_Z 6)%Q.
    apply Qmult_le_l; [reflexivity|]. rewrite <- Zle_Qle.
    apply (Z.le_trans _ (Z.of_nat (List.length loans))).
    + apply inj_le. unfold fees. rewrite length_map. apply filter_length_le.
    + rewrite <- Hn, Hcount. apply Hsix.
Qed.

Lemma report_of_a_reachable_store_witness :
  let calls := [(fine_at morning, Add "Zzz" "A" zzz_isbn (Py.Int 1));
                (fine_at morning, Borrow "123456" 1)] in
  let r := get_patron_status_report (fine_at (plus_days morning 24))
                                    (run calls init_database) "123456" in
  total_borrowed r = get_patron_borrow_count (run calls init_database) "123456"
  /\ total_borrowed r <= 6
  /\ (0 <= total_fees r <= 90)%Q.
Proof.
  intros calls r.
  exact (report_of_a_reachable_store calls (fine_at (plus_days morning 24)) "123456"
                                     eq_refl eq_refl).
Defined.

(** X18. In every store the service can reach, the history of a valid
    patron's report has one line for each borrow record of that patron, open
    or returned, each joined with its own book, and the lines come newest
    borrow first. *)
Theorem history_lists_every_record_newest_first
    (calls : list (Env * Request)) (e : Env) (patron : string) :
  invalid_patron_id patron = false ->
  error (get_patron_status_report e (run calls init_database) patron) = None ->
  let db := run calls init_database in
  exists rows : list (BorrowRecord * Book),
    borrow_history (get_patron_status_report e db patron) = map history_entry rows
    /\ Sorted newer_first rows
    /\ Permutation (map fst rows)
                   (filter (fun br => (patron_id br =? patron)%string)
                           (borrow_records db))
    /\ Forall (fun row => get_book_by_id db (book_id (fst row)) = Some (snd row)) rows.
Proof.
  intros Hp Herr db.
  destruct (reachable_store_well_formed calls _ init_database_well_formed)
    as (_ & _ & _ & Hrec & _). fold db in Hrec.
  destruct (report_fields e db patron Hp Herr) as (_ & _ & _ & _ & Hh & _).
  exists (history_rows db patron). split; [exact Hh|].
  unfold history_rows.
  set (joined := flat_map _ (borrow_records db)).
  split; [|split].
  - apply (order_by_sorted
             (fun x y : BorrowRecord * Book =>
                borrow_date (fst y) <=? borrow_date (fst x))).
    intros x y.
    destruct (Z.le_ge_cases (borrow_date (fst x)) (borrow_date (fst y))) as [H | H];
      [right | left]; apply Z.leb_le; exact H.
  - rewrite (Permutation_map fst (order_by_permutation _ joined)).
    unfold joined. rewrite (proj2 (joins_lose_nothing (now e) db patron _ Hrec)).
    reflexivity.
  - apply Forall_forall. intros row Hrow.
    apply (Permutation_in _ (order_by_permutation _ joined)) in Hrow.
    unfold joined in Hrow. apply in_flat_map in Hrow.
    destruct Hrow as (br & _ & Hrow).
    destruct (patron_id br =? patron)%string; [|contradiction].
    destruct (get_book_by_id db (book_id br)) as [b|] eqn:E; [|contradiction].
    destruct Hrow as [<- | []]. exact E.
Qed.

Lemma history_lists_every_record_newest_first_witness :
  let calls := [(fine_at morning, Add "Zzz" "A" zzz_isbn (Py.Int 1));
                (fine_at morning, Borrow "123456" 1);
                (fine_at (plus_days morning 2), Return "123456" 1);
                (fine_at (plus_days morning 5), Borrow "123456" 1)] in
  exists rows : list (BorrowRecord * Book),
    borrow_history (get_patron_status_report (fine_at (plus_days morning 6))
                                             (run calls init_database) "123456")
    = map history_entry rows
    /\ Sorted newer_first rows
    /\ Permutation (map fst rows)
                   (filter (fun br => (patron_id br =? "123456")%string)
                           (borrow_records (run calls init_database)))
    /\ Forall (fun row => get_book_by_id (run calls init_database)
                                         (book_id (fst row)) = Some (snd row)) rows.
Proof.
  intros calls.
  exact (history_lists_every_record_newest_first
           calls (fine_at (plus_days morning 6)) "123456" eq_refl eq_refl).
Defined.

(** ** More on adding and returning *)

(** X19. A book that [add] has stored is what a lookup by its isbn returns,
    with the fresh id and all its copies available; and from then on every
    [add] with that isbn is refused and leaves the store alone, whatever the
    other arguments, with the duplicate message whenever they pass the field
    rules. *)
Theorem added_isbn_is_taken
    (e : Env) (db db1 : Database) (t a i : string) (n : Py.value) (m : Message) :
  add_book_to_catalog e db t a i n = (true, m, db1) ->
  (exists bk : Book,
      get_book_by_isbn db1 i = Some bk
      /\ get_book_by_id db1 (id bk) = Some bk
      /\ id bk = next_book_id db
      /\ title bk = Py.strip t /\ author bk = Py.strip a
      /\ n = Py.Int (total_copies bk)
      /\ available_copies bk = total_copies bk)
  /\ (forall (e' : Env) (t' a' : string) (n' : Py.value),
         let again := add_book_to_catalog e' db1 t' a' i n' in
         fst (fst again) = false
         /\ snd again = db1
         /\ (forallb (fun r => negb (rule_fails db1 t' a' i n' r)) field_rules = true ->
             snd (fst again) = Isbn_exists)).
Proof.
  intros Hadd.
  destruct (add_success_inversion e db db1 t a i n m Hadd)
    as (copies & Hn & _ & _ & _ & _ & _ & Hlen & Hfree & _ & Hdb1).
  set (bk := mkBook (next_book_id db) (Py.strip t) (Py.strip a) i copies copies) in *.
  assert (Hisbn : get_book_by_isbn db1 i = Some bk).
  { rewrite Hdb1. unfold get_book_by_isbn in *. cbn [books].
    rewrite find_past_prefix by exact Hfree.
    cbn [find isbn bk]. rewrite String.eqb_refl. reflexivity. }
  split.
  - exists bk. split; [exact Hisbn|]. split.
    + rewrite Hdb1. unfold get_book_by_id. cbn [books id bk].
      rewrite find_past_prefix.
      * cbn [find id]. rewrite Z.eqb_refl. reflexivity.
      * destruct (find (fun x => id x =? next_book_id db) (books db)) eqn:E;
          [|reflexivity].
        exfalso. apply (next_book_id_is_fresh db). apply get_book_by_id_known.
        unfold get_book_by_id. rewrite E. discriminate.
    + repeat split; try reflexivity. exact Hn.
  - intros e' t' a' n'. cbv zeta. rewrite add_book_to_catalog_cases.
    unfold field_rules. cbn [forallb rule_fails]. rewrite Hisbn.
    apply Z.eqb_eq in Hlen. rewrite Hlen. cbn [negb].
    destruct (Py.strip t' =? EmptyString)%string;
      [|destruct (200 <? Py.len (Py.strip t'));
        [|destruct (Py.strip a' =? EmptyString)%string;
          [|destruct (100 <? Py.len (Py.strip a'));
            [|destruct n' as [copies'| | |];
              [destruct (copies' <=? 0)| | |]]]]];
      (split; [reflexivity|]; split; [reflexivity|]);
      cbn [fst snd]; intros H; try reflexivity;
      destruct (isbn_13_digits i); cbn [negb andb] in H; discriminate H.
Qed.

Lemma added_isbn_is_taken_witness :
  add_book_to_catalog (fine_at morning) zzz_catalog "Other" "B" zzz_isbn (Py.Int 3)
  = (false, Isbn_exists, zzz_catalog).
Proof.
  destruct (proj2 (added_isbn_is_taken
                     (fine_at morning) init_database zzz_catalog
                     "Zzz" "A" zzz_isbn (Py.Int 1) (Book_added "Zzz") eq_refl)
                  (fine_at morning) "Other" "B" (Py.Int 3)) as (_ & _ & H).
  reflexivity.
Defined.

(** X20. For a valid patron id and a book of the catalog, a return answers
    that the book was not borrowed by this patron exactly when the patron
    holds no open loan of it; the same holds for the calculator's status, and
    both leave fee and store untouched. *)
Theorem unborrowed_book_is_neither_returned_nor_charged
    (e : Env) (db : Database) (patron : string) (book : Z) (bk : Book) :
  invalid_patron_id patron = false ->
  get_book_by_id db book = Some bk ->
  (snd (fst (return_book_by_patron e db patron book)) = Not_borrowed_by_patron
   <-> open_loans_of_pair db patron book = 0)
  /\ (status (calculate_late_fee_for_book e db patron book)
      = "Book not borrowed by this patron"
      <-> open_loans_of_pair db patron book = 0)
  /\ (open_loans_of_pair db patron book = 0 ->
      return_book_by_patron e db patron book = (false, Not_borrowed_by_patron, db)
      /\ fee_amount (calculate_late_fee_for_book e db patron book) = 0%Q).
Proof.
  intros Hp Hb.
  assert (Hnonneg : 0 <= open_loans_of_pair db patron book)
    by (unfold open_loans_of_pair; lia).
  assert (Hfound : forall loan,
             find (fun borrowed => loan_book_id borrowed =? book)
                  (get_patron_borrowed_books (now e) db patron) = Some loan ->
             open_loans_of_pair db patron book <> 0).
  { intros loan Hl Hzero.
    rewrite (no_open_record_not_listed (now e) db patron book Hzero) in Hl.
    discriminate Hl. }
  assert (Hmissing :
            find (fun borrowed => loan_book_id borrowed =? book)
                 (get_patron_borrowed_books (now e) db patron) = None ->
            open_loans_of_pair db patron book = 0).
  { intros Hnone.
    destruct (Z.eq_dec (open_loans_of_pair db patron book) 0) as [H | H]; [exact H|].
    exfalso.
    apply (open_record_is_listed (now e) db patron book); [rewrite Hb; discriminate| |exact Hnone].
    apply open_pair_exists. lia. }
  unfold return_book_by_patron, calculate_late_fee_for_book. rewrite Hp, Hb.
  destruct (find (fun borrowed => loan_book_id borrowed =? book)
                 (get_patron_borrowed_books (now e) db patron)) as [loan|] eqn:El.
  - specialize (Hfound loan eq_refl).
    split; [|split]; [split | split | intros H; contradiction];
      try (intros H; contradiction).
    + destruct (update_borrow_record_return_date_ok e);
        [|cbn; intros H; discriminate H].
      destruct (update_book_availability_ok e); cbn;
        [|intros H; discriminate H].
      destruct (date_of (loan_due_date loan) <? date_of (now e));
        intros H; discriminate H.
    + destruct (date_of (now e) <=? date_of (loan_due_date loan)); cbn;
        intros H; discriminate H.
  - specialize (Hmissing eq_refl).
    split; [|split]; [split; auto | split; auto | intros _; split; reflexivity].
Qed.

Lemma unborrowed_book_is_neither_returned_nor_charged_witness :
  return_book_by_patron (fine_at morning) zzz_on_loan "654321" 1
  = (false, Not_borrowed_by_patron, zzz_on_loan)
  /\ fee_amount (calculate_late_fee_for_book (fine_at morning) zzz_on_loan "654321" 1)
     = 0%Q.
Proof.
  exact (proj2 (proj2 (unborrowed_book_is_neither_returned_nor_charged
                         (fine_at morning) zzz_on_loan "654321" 1
                         (mkBook 1 "Zzz" "A" zzz_isbn 1 0) eq_refl eq_refl))
               eq_refl).
Defined.

(** ** Copies and open loans *)

Lemma serve_preserves_balance (e : Env) (r : Request) (db : Database) :
  records_reference_books db ->
  balanced db ->
  availability_follows_record (e, r) = true ->
  balanced (snd (serve e r db)).
Proof.
  intros Href Hbal Hpair b bk.
  unfold availability_follows_record in Hpair. cbn [fst snd] in Hpair.
  destruct r as [t a i n | p b' | p b']; cbn [serve].
  - (* add *)
    destruct (add_store_cases e db t a i n) as [-> | (copies & _ & _ & _ & ->)];
      [apply Hbal|].
    unfold get_book_by_id, open_loans_of_book. cbn [books borrow_records].
    destruct (find (fun x => id x =? b) (books db)) as [old|] eqn:E.
    + rewrite (find_in_longer_list _ _ _ _ E). intros [= <-].
      apply (Hbal b old). exact E.
    + rewrite (find_past_prefix _ _ _ E). cbn [find id].
      destruct (next_book_id db =? b) eqn:Eb; [|discriminate].
      intros [= <-]. cbn [available_copies total_copies].
      fold (open_loans_of_book db b).
      rewrite (no_loans_of_unknown_book db b Href); [lia|].
      intros Hin. apply get_book_by_id_known in Hin. apply Hin. exact E.
  - (* borrow *)
    destruct (borrow_store_cases e db p b')
      as [-> | (bk' & Hget' & _ & Hins & ->)]; [apply Hbal|].
    rewrite Hins in Hpair. cbn [implb] in Hpair. rewrite Hpair. cbv zeta.
    unfold get_book_by_id, open_loans_of_book. cbn [books borrow_records].
    rewrite get_book_after_shift. fold (get_book_by_id db b).
    destruct (get_book_by_id db b) as [old|] eqn:Hget; [|discriminate].
    cbn [option_map]. intros [= <-].
    pose proof (Hbal b old Hget) as H. unfold open_loans_of_book in H.
    rewrite shift_available_total, shift_available_copies, count_open_loans_app.
    unfold count_open_loans at 2. cbn [filter is_open return_date book_id andb].
    rewrite (get_book_by_id_has_id db b old Hget), (Z.eqb_sym b b').
    destruct (b' =? b); cbn [List.length]; lia.
  - (* return *)
    unfold return_book_by_patron.
    destruct (invalid_patron_id p); [apply Hbal|].
    destruct (get_book_by_id db b') as [bk'|]; [|apply Hbal].
    destruct (find (fun borrowed => loan_book_id borrowed =? b')
                   (get_patron_borrowed_books (now e) db p)) as [loan|] eqn:El;
      [|apply Hbal].
    pose proof (found_loan_is_open_record db b' (now e) p loan El) as Hopen.
    destruct (update_borrow_record_return_date_ok e); [|apply Hbal].
    cbn [implb] in Hpair. rewrite Hpair.
    cbn [update_borrow_record_return_date update_book_availability negb].
    assert (Hsame : forall (m1 m2 : Message) (d : Database),
               snd (if date_of (loan_due_date loan) <? date_of (now e)
                    then (true, m1, d) else (true, m2, d)) = d)
      by (intros; destruct (date_of (loan_due_date loan) <? date_of (now e));
          reflexivity).
    rewrite Hsame. clear Hsame.
    unfold get_book_by_id, open_loans_of_book. cbn [books borrow_records].
    rewrite get_book_after_shift. fold (get_book_by_id db b).
    destruct (get_book_by_id db b) as [old|] eqn:Hget; [|discriminate].
    cbn [option_map]. intros [= <-].
    pose proof (Hbal b old Hget) as H. unfold open_loans_of_book in H.
    rewrite shift_available_total, shift_available_copies,
            (count_open_loans_after_close b p b' (now e) _ Hopen).
    rewrite (get_book_by_id_has_id db b old Hget), (Z.eqb_sym b b').
    destruct (b' =? b); lia.
Qed.

Lemma run_preserves_balance (calls : list (Env * Request)) :
  forall db : Database,
    records_reference_books db ->
    balanced db ->
    forallb availability_follows_record calls = true ->
    balanced (run calls db).
Proof.
  induction calls as [|[e r] calls IH]; intros db Href Hbal Hpair; [exact Hbal|].
  cbn [forallb] in Hpair. apply andb_true_iff in Hpair. destruct Hpair as [H1 H2].
  cbn [run]. apply IH; [| |exact H2].
  - apply serve_preserves_references. exact Href.
  - apply serve_preserves_balance; assumption.
Qed.

Lemma listed_book_is_looked_up (db : Database) (bk : Book) :
  NoDup (map id (books db)) ->
  In bk (books db) ->
  get_book_by_id db (id bk) = Some bk.
Proof.
  unfold get_book_by_id. induction (books db) as [|x l IH]; [contradiction|].
  cbn [map]. intros Hnd Hin. inversion Hnd as [|? ? Hx Hnd']; subst.
  cbn [find]. destruct (Z.eqb_spec (id x) (id bk)) as [E | E].
  - destruct Hin as [-> | Hin]; [reflexivity|].
    exfalso. apply Hx. rewrite E. apply in_map. exact Hin.
  - destruct Hin as [-> | Hin]; [contradiction|]. apply IH; assumption.
Qed.

(** X21. As long as every borrow and every return that writes its record
    also writes its change of the available copies, every book of every
    store the service reaches has each of its copies either available or on
    an open loan: available copies + open loans = total copies, so the
    available copies never exceed the total. *)
Theorem copies_are_available_or_on_loan
    (calls : list (Env * Request)) (bk : Book) :
  forallb availability_follows_record calls = true ->
  In bk (books (run calls init_database)) ->
  available_copies bk + open_loans_of_book (run calls init_database) (id bk)
  = total_copies bk
  /\ 0 <= open_loans_of_book (run calls init_database) (id bk)
  /\ available_copies bk <= total_copies bk.
Proof.
  intros Hpair Hin.
  assert (Hbal : balanced (run calls init_database)).
  { apply run_preserves_balance; [apply init_database_references| |exact Hpair].
    intros b x H. discriminate H. }
  pose proof (reachable_store_well_formed calls init_database
                init_database_well_formed) as (Hids & _).
  pose proof (Hbal (id bk) bk (listed_book_is_looked_up _ bk Hids Hin)) as H.
  pose proof (count_open_loans_nonneg (id bk)
                (borrow_records (run calls init_database))) as H0.
  unfold open_loans_of_book in *. lia.
Qed.

Lemma copies_are_available_or_on_loan_witness :
  0 + open_loans_of_book zzz_on_loan 1 = 1.
Proof.
  exact (proj1 (copies_are_available_or_on_loan
                  [(fine_at morning, Add "Zzz" "A" zzz_isbn (Py.Int 1));
                   (fine_at morning, Borrow "123456" 1)]
                  (mkBook 1 "Zzz" "A" zzz_isbn 1 0)
                  eq_refl (or_introl eq_refl))).
Defined.
